(** * GitHub stats updater: a shallow embedding of
    [scripts/github_stats_updater.py] and the properties of its collector,
    its two text renderers and its README patcher.

    Conventions of the embedding.
    - A Python [int] is a [Z]; a Python [str] is a [string] holding the UTF-8
      bytes of the text (every [len] the script takes is of an ASCII string,
      and its markers are ASCII, so byte positions and code-point positions
      of a match coincide on UTF-8 text).
    - A Python [dict] is a [gmap]; a [set] is a [gset].
    - A call that can raise returns a [result]; the collector, which mutates
      its two dictionaries while exceptions fly, runs in a state-and-exception
      monad whose state survives a raise.
    - [int / int] is Python's true division: the binary64 number nearest the
      exact quotient (ties to even), modelled exactly as a dyadic rational. *)

From Stdlib Require Import ZArith Lia Ascii String DecimalString.
From stdpp Require Import base option list gmap strings.

Local Open Scope Z_scope.

(* ===================================================================== *)
(** * Python runtime                                                      *)
(* ===================================================================== *)

(** ** Exceptions and results *)

Inductive exn : Type :=
| ZeroDivisionError
| OverflowError
| ValueError
| IndexError
| GithubException.

Inductive result (A : Type) : Type :=
| Ok (a : A)
| Raise (e : exn).
Arguments Ok {A} a.
Arguments Raise {A} e.

#[global] Instance result_ret : MRet result := fun A a => Ok a.
#[global] Instance result_bind : MBind result := fun A B f m =>
  match m with
  | Ok a => f a
  | Raise e => Raise e
  end.

(** [for x in l: ...] collecting the values of a body that can raise. *)
Fixpoint for_each {A B : Type} (f : A -> result B) (l : list A) : result (list B) :=
  match l with
  | [] => Ok []
  | x :: l' => y ← f x; ys ← for_each f l'; Ok (y :: ys)
  end.

(** ** Floats: the finite binary64 numbers, as dyadic rationals *)

(** [Float m e] is the number [m * 2^e]. *)
Record float : Type := Float { mant : Z; expo : Z }.

(** The integer nearest to [n / d] for [d > 0], ties going to the even one. *)
Definition round_half_even (n d : Z) : Z :=
  let q := n / d in
  let r := n mod d in
  if 2 * r <? d then q
  else if d <? 2 * r then q + 1
  else if Z.even q then q else q + 1.

(** [floor (log2 (n / d))] for positive [n] and [d]. *)
Definition ilog2_ratio (n d : Z) : Z :=
  let l := Z.log2 n - Z.log2 d in
  if (if 0 <=? l then d * 2 ^ l <=? n else d <=? n * 2 ^ (- l))
  then l else l - 1.

(** [a / b] on two ints: the correctly rounded binary64 quotient.  The
    significand has 53 bits, the least exponent is -1074 (subnormals), and a
    quotient that rounds to [2^1024] or more overflows. *)
Definition true_div (a b : Z) : result float :=
  if b =? 0 then Raise ZeroDivisionError
  else if a =? 0 then Ok (Float 0 0)
  else
    let n := Z.abs a in
    let d := Z.abs b in
    let e := Z.max (ilog2_ratio n d - 52) (-1074) in
    let m := if 0 <=? e then round_half_even n (d * 2 ^ e)
             else round_half_even (n * 2 ^ (- e)) d in
    if (0 <=? e) && (2 ^ 1024 <=? m * 2 ^ e) then Raise OverflowError
    else Ok (Float (Z.sgn a * Z.sgn b * m) e).

(** [int(x)]: truncation towards zero. *)
Definition py_int (x : float) : Z :=
  if 0 <=? expo x then mant x * 2 ^ expo x
  else Z.quot (mant x) (2 ^ (- expo x)).

(** [round(x)]: the nearest int, ties to even. *)
Definition py_round (x : float) : Z :=
  if 0 <=? expo x then mant x * 2 ^ expo x
  else round_half_even (mant x) (2 ^ (- expo x)).

(** ** Built-ins on lists and dicts *)

(** [max(iterable)]; the empty iterable raises [ValueError]. *)
Definition py_max (l : list Z) : result Z :=
  match l with
  | [] => Raise ValueError
  | x :: l' => Ok (foldl Z.max x l')
  end.

(** [d.values()] *)
Definition values {K : Type} `{Countable K} {V : Type} (d : gmap K V) : list V :=
  (map_to_list d).*2.

(** [bool(d)] of a dict: it has an entry. *)
Definition truthy {K : Type} `{Countable K} {V : Type} (d : gmap K V) : bool :=
  negb (bool_decide (d = ∅)).

(** [l[i]] with Python's negative indices. *)
Definition py_index {A : Type} (l : list A) (i : Z) : result A :=
  let n := Z.of_nat (length l) in
  let j := if 0 <=? i then i else n + i in
  if (0 <=? j) && (j <? n) then
    match l !! Z.to_nat j with
    | Some x => Ok x
    | None => Raise IndexError
    end
  else Raise IndexError.

(** ** Strings *)

Definition nl : string := String "010"%char "".

(** [s * n] *)
Fixpoint str_repeat (s : string) (n : nat) : string :=
  match n with
  | O => ""
  | S n' => s +:+ str_repeat s n'
  end.

(** [str(i)] *)
Definition str (i : Z) : string := NilZero.string_of_int (Z.to_int i).

(** [s.ljust(w)], which is also [f"{s:<w}"] for a string [s]. *)
Definition ljust (w : nat) (s : string) : string :=
  s +:+ str_repeat " " (w - String.length s).

(** [f"{h:02d}"]: a one-character numeral is a single digit and gets one
    leading zero; longer ones are already two wide. *)
Definition format_02d (h : Z) : string :=
  let s := str h in
  if (String.length s <? 2)%nat then "0" +:+ s else s.

(** [sep.join(l)] *)
Fixpoint join (sep : string) (l : list string) : string :=
  match l with
  | [] => ""
  | [s] => s
  | s :: l' => s +:+ sep +:+ join sep l'
  end.

(** [sub in s] *)
Fixpoint contains (sub s : string) : bool :=
  String.prefix sub s ||
  match s with
  | EmptyString => false
  | String _ s' => contains sub s'
  end.

(** [s[n:]] *)
Fixpoint drop_str (n : nat) (s : string) : string :=
  match n, s with
  | O, _ => s
  | S n', String _ s' => drop_str n' s'
  | S _, EmptyString => ""
  end.

(** [s[:n]] *)
Fixpoint take_str (n : nat) (s : string) : string :=
  match n, s with
  | S n', String c s' => String c (take_str n' s')
  | _, _ => ""
  end.

(** [s.find(sub)]: where [sub] first occurs in [s] ([None] for Python's -1). *)
Fixpoint find (sub s : string) : option nat :=
  if String.prefix sub s then Some O
  else match s with
       | EmptyString => None
       | String _ s' => S <$> find sub s'
       end.

(** [s.rfind(sub)]: where [sub] last occurs in [s]. *)
Fixpoint rfind (sub s : string) : option nat :=
  match s with
  | EmptyString => if String.prefix sub s then Some O else None
  | String _ s' =>
      match rfind sub s' with
      | Some i => Some (S i)
      | None => if String.prefix sub s then Some O else None
      end
  end.

(** [c in s] for a character [c]. *)
Fixpoint has_char (c : ascii) (s : string) : bool :=
  match s with
  | EmptyString => false
  | String a s' => bool_decide (a = c) || has_char c s'
  end.

(** ** Regular expressions: the fragment the script's pattern is written in *)

Inductive regex : Type :=
| Lit (s : string)          (* literal text *)
| AnyStar                   (* [.*] under [re.DOTALL], greedy *)
| Group (r : regex)         (* [( r )] *)
| Cat (r1 r2 : regex).      (* [r1 r2] *)

(** Backtracking match of [r] at the start of [s]; [k] is what still has to
    match after [r] and receives the unread rest.  [.*] first tries to read
    one more character and gives characters back only when the rest fails.
    Groups record positions only; no replacement of the script reads them
    back (its template has no backslash, see [update_readme]). *)
Fixpoint any_star (k : string -> option string) (s : string) : option string :=
  match s with
  | EmptyString => k ""
  | String _ s' =>
      match any_star k s' with
      | Some t => Some t
      | None => k s
      end
  end.

Fixpoint rmatch (r : regex) (s : string) (k : string -> option string) : option string :=
  match r with
  | Lit l => if String.prefix l s then k (drop_str (String.length l) s) else None
  | AnyStar => any_star k s
  | Group r' => rmatch r' s k
  | Cat r1 r2 => rmatch r1 s (fun s' => rmatch r2 s' k)
  end.

(** The scan of [re.sub]: [skip] counts the characters of the current match
    that are still to be dropped.  At a position where the pattern matches,
    the replacement is written and the matched characters are dropped; where
    it does not, the character is copied. *)
Fixpoint sub_scan (r : regex) (repl : string) (skip : nat) (s : string) : string :=
  match skip with
  | S n =>
      match s with
      | EmptyString => ""
      | String _ s' => sub_scan r repl n s'
      end
  | O =>
      match rmatch r s Some with
      | Some rest =>
          repl +:+
          match (String.length s - String.length rest)%nat, s with
          | S n, String _ s' => sub_scan r repl n s'
          | _, EmptyString => ""
          | O, String c s' => String c (sub_scan r repl O s')
          end
      | None =>
          match s with
          | EmptyString => ""
          | String c s' => String c (sub_scan r repl O s')
          end
      end
  end.

(** [re.sub(pattern, repl, s, flags=re.DOTALL)] for a template [repl]
    without backslash, which stands for itself. *)
Definition re_sub (pattern : regex) (repl s : string) : string :=
  sub_scan pattern repl O s.

(* ===================================================================== *)
(** * The script                                                          *)
(* ===================================================================== *)

(** ** Text renderer: the daily bar chart *)

Definition days : list string := ["Mon"; "Tue"; "Wed"; "Thu"; "Fri"; "Sat"; "Sun"].

(** [max(daily_commits.values()) if daily_commits else 1] *)
Definition daily_max (daily_commits : gmap string Z) : result Z :=
  if truthy daily_commits then py_max (values daily_commits) else Ok 1.

(** [round(commits * k / max_commits) if max_commits > 0 else 0] *)
Definition scale_round (commits k max_commits : Z) : result Z :=
  if 0 <? max_commits then
    x ← true_div (commits * k) max_commits; Ok (py_round x)
  else Ok 0.

Definition day_commits (daily_commits : gmap string Z) (day : string) : Z :=
  default 0 (daily_commits !! day).

Definition bar_hours (daily_commits : gmap string Z) (max_commits : Z) (day : string) : result Z :=
  scale_round (day_commits daily_commits day) 24 max_commits.

Definition bar_length (daily_commits : gmap string Z) (max_commits : Z) (day : string) : result Z :=
  scale_round (day_commits daily_commits day) 20 max_commits.

Definition bar_of (bar_length : Z) : string := str_repeat "═" (Z.to_nat bar_length).

(** The body of the loop over [days]: one line of the chart. *)
Definition daily_bar (daily_commits : gmap string Z) (max_commits : Z) (day : string) : result string :=
  hours ← bar_hours daily_commits max_commits day;
  bar_length ← bar_length daily_commits max_commits day;
  let bar := bar_of bar_length in
  Ok (ljust 8 day +:+ " ╠" +:+ bar +:+ "╣ " +:+ str hours +:+ "hrs").

Definition scale : string := "         0   4   8   12   16   20   24".

Definition create_daily_commit_bars (daily_commits : gmap string Z) : result string :=
  max_commits ← daily_max daily_commits;
  bars ← for_each (daily_bar daily_commits max_commits) days;
  Ok (join nl (bars ++ [scale])).

(** ** Text renderer: the heatmap *)

Definition hours : list Z := seqZ 0 24.

(** The generator handed to [max]: every count of every day. *)
Definition hourly_cells (hourly_commits : gmap string (gmap Z Z)) : list Z :=
  day_commits ← values hourly_commits; values day_commits.

Definition hourly_max (hourly_commits : gmap string (gmap Z Z)) : result Z :=
  if truthy hourly_commits then py_max (hourly_cells hourly_commits) else Ok 1.

Definition intensity_chars : list string := ["░░"; "▒░"; "▒▒"; "█░"; "█▒"; "█▓"; "██"].

(** [hourly_commits.get(day, {}).get(hour, 0)] *)
Definition cell_commits (hourly_commits : gmap string (gmap Z Z)) (day : string) (hour : Z) : Z :=
  default 0 (default ∅ (hourly_commits !! day) !! hour).

(** [int((commits * (len(intensity_chars) - 1)) / max_commits) if max_commits > 0 else 0] *)
Definition intensity (hourly_commits : gmap string (gmap Z Z)) (max_commits : Z)
    (day : string) (hour : Z) : result Z :=
  let commits := cell_commits hourly_commits day hour in
  if 0 <? max_commits then
    x ← true_div (commits * (Z.of_nat (length intensity_chars) - 1)) max_commits;
    Ok (py_int x)
  else Ok 0.

(** The body of the inner loop: the glyph of one cell. *)
Definition heatmap_cell (hourly_commits : gmap string (gmap Z Z)) (max_commits : Z)
    (day : string) (hour : Z) : result string :=
  i ← intensity hourly_commits max_commits day hour;
  py_index intensity_chars i.

(** The body of the outer loop: one row. *)
Definition heatmap_row (hourly_commits : gmap string (gmap Z Z)) (max_commits : Z)
    (day : string) : result string :=
  cells ← for_each (heatmap_cell hourly_commits max_commits day) hours;
  Ok (join " " (ljust 5 day :: cells)).

Definition heatmap_header : string := "     " +:+ join " " (format_02d <$> hours).

Definition create_heatmap (hourly_commits : gmap string (gmap Z Z)) : result string :=
  max_commits ← hourly_max hourly_commits;
  rows ← for_each (heatmap_row hourly_commits max_commits) days;
  Ok (join nl (heatmap_header :: rows)).

(** ** The stats and the rendered section *)

Record Stats : Type := mkStats {
  stars : Z;
  prs : Z;
  issues : Z;
  contributions : Z;
  commits : Z;
  hourly_commits : gmap string (gmap Z Z);
  daily_commits : gmap string Z;
  contributed_to : Z
}.

(** [year] is [datetime.now().year]. *)
Definition create_stats_section (year : Z) (stats : Stats) : result string :=
  daily_bars ← create_daily_commit_bars (daily_commits stats);
  heatmap ← create_heatmap (hourly_commits stats);
  Ok (join nl [
    "";
    "```txt";
    "GitHub Stats Summary";
    "╔══════════════════════════════════════╗";
    "║ Total Stars Earned:     " +:+ ljust 12 (str (stars stats)) +:+ " ║";
    "║ Total Commits (" +:+ str year +:+ "):   " +:+ ljust 12 (str (commits stats)) +:+ " ║";
    "║ Total PRs:              " +:+ ljust 12 (str (prs stats)) +:+ " ║";
    "║ Total Issues:           " +:+ ljust 12 (str (issues stats)) +:+ " ║";
    "║ Contributed to:         " +:+ ljust 12 (str (contributed_to stats)) +:+ " ║";
    "╚══════════════════════════════════════╝";
    "";
    "Commit Activity (Last 30 Days)";
    daily_bars;
    "";
    "Commit Time Distribution";
    heatmap;
    "```";
    "" ]).

(** ** File patcher *)

Definition start_marker : string := "<!--START_SECTION:github_stats-->".
Definition end_marker : string := "<!--END_SECTION:github_stats-->".

(** [f'({start_marker}).*({end_marker})']; no character of a marker is a
    regex metacharacter. *)
Definition pattern : regex :=
  Cat (Group (Lit start_marker)) (Cat AnyStar (Group (Lit end_marker))).

(** [update_readme]: [content] is what [README.md] holds when it is read, the
    result is what is written back; when rendering raises, nothing is
    written. *)
Definition update_readme (year : Z) (stats : Stats) (content : string) : result string :=
  stats_section ← create_stats_section year stats;
  if negb (contains start_marker content) then
    Ok (content +:+ nl +:+ start_marker +:+ nl +:+ stats_section +:+ nl +:+ end_marker +:+ nl)
  else
    Ok (re_sub pattern (start_marker +:+ nl +:+ stats_section +:+ nl +:+ end_marker) content).

(** ** Stats collector *)

(** A [PaginatedList] of the API client while it is iterated: it hands out
    an element, ends, or raises (a page request that fails). *)
Inductive paginated (A : Type) : Type :=
| Yield (a : A) (rest : paginated A)
| StopIteration
| Fails (e : exn).
Arguments Yield {A} a rest.
Arguments StopIteration {A}.
Arguments Fails {A} e.

(** What the API answers for one repository.  A commit is kept as what the
    loop reads of it: [commit.commit.author.date] as its [strftime('%a')]
    day name and its hour. *)
Record Repo : Type := mkRepo {
  stargazers_count : Z;
  (* [repo.get_commits(since=thirty_days_ago, author=user.login)] *)
  recent_commits : paginated (string * Z);
  (* [repo.get_commits(since=datetime(current_year, 1, 1)).totalCount] *)
  year_totalCount : result Z
}.

Record Event : Type := mkEvent {
  created_at : Z;
  type : string;
  repo_name : string
}.

Record User : Type := mkUser {
  get_repos : list Repo;
  get_pulls : list unit;
  get_issues : list unit;
  get_events : list Event
}.

(** Code that updates local variables [S] and can raise: the variables keep
    what was written before the raise. *)
Definition prog (S A : Type) : Type := S -> result A * S.

Definition pure {S A : Type} (a : A) : prog S A := fun s => (Ok a, s).
Definition raise {S A : Type} (e : exn) : prog S A := fun s => (Raise e, s).
Definition modify {S : Type} (f : S -> S) : prog S unit := fun s => (Ok tt, f s).
Definition bind {S A B : Type} (m : prog S A) (f : A -> prog S B) : prog S B :=
  fun s =>
    match m s with
    | (Ok a, s') => f a s'
    | (Raise e, s') => (Raise e, s')
    end.
(** [try: body / except: handler] with a bare [except]. *)
Definition try_except {S A : Type} (body handler : prog S A) : prog S A :=
  fun s =>
    match body s with
    | (Ok a, s') => (Ok a, s')
    | (Raise _, s') => handler s'
    end.

Notation "m ;; k" := (bind m (fun _ => k)) (at level 100, right associativity).

(** [for x in it: body] over a paginated list. *)
Fixpoint iterate {S A : Type} (body : A -> prog S unit) (it : paginated A) : prog S unit :=
  match it with
  | Yield a rest => body a ;; iterate body rest
  | StopIteration => pure tt
  | Fails e => raise e
  end.

(** [for x in l: body] over a list. *)
Fixpoint for_in {S A : Type} (body : A -> prog S unit) (l : list A) : prog S unit :=
  match l with
  | [] => pure tt
  | x :: l' => body x ;; for_in body l'
  end.

(** The two [defaultdict]s of [get_commit_time_data]. *)
Record tally : Type := mkTally {
  t_hourly : gmap string (gmap Z Z);
  t_daily : gmap string Z
}.

(** [hourly_commits[day_name][hour] += 1; daily_commits[day_name] += 1] *)
Definition count_commit (c : string * Z) : prog tally unit :=
  let '(day_name, hour) := c in
  modify (fun t =>
    let row := default ∅ (t_hourly t !! day_name) in
    mkTally (<[day_name := <[hour := default 0 (row !! hour) + 1]> row]> (t_hourly t))
            (<[day_name := default 0 (t_daily t !! day_name) + 1]> (t_daily t))).

Definition get_commit_time_data (user : User)
    : result (gmap string (gmap Z Z) * gmap string Z) :=
  let '(r, t) :=
    for_in (fun repo => try_except (iterate count_commit (recent_commits repo)) (pure tt))
           (get_repos user) (mkTally ∅ ∅) in
  _ ← r; Ok (t_hourly t, t_daily t).

(** The loop of [get_github_stats] over the commits of the current year;
    the local variable is the running total. *)
Definition count_year_commits (repos : list Repo) : result Z :=
  let '(r, commits) :=
    for_in (fun repo =>
              try_except
                (fun commits =>
                   match year_totalCount repo with
                   | Ok n => (Ok tt, commits + n)
                   | Raise e => (Raise e, commits)
                   end)
                (pure tt))
           repos 0 in
  _ ← r; Ok commits.

(** The scan of the events, newest first, which stops at the first event
    older than [year_ago]. *)
Fixpoint scan_events (year_ago : Z) (events : list Event) (contributed_repos : gset string)
    : gset string :=
  match events with
  | [] => contributed_repos
  | event :: events' =>
      if created_at event <? year_ago then contributed_repos
      else if bool_decide (type event ∈ ["PushEvent"; "PullRequestEvent"])
      then scan_events year_ago events' ({[ repo_name event ]} ∪ contributed_repos)
      else scan_events year_ago events' contributed_repos
  end.

(** [get_github_stats], after the client has been set up; [year_ago] is
    [datetime.now().replace(year=datetime.now().year - 1)]. *)
Definition get_github_stats (year_ago : Z) (user : User) : result Stats :=
  let stars := foldr Z.add 0 (stargazers_count <$> get_repos user) in
  let prs := Z.of_nat (length (get_pulls user)) in
  let issues := Z.of_nat (length (get_issues user)) in
  commits ← count_year_commits (get_repos user);
  '(hourly_commits, daily_commits) ← get_commit_time_data user;
  let contributed_repos := scan_events year_ago (get_events user) ∅ in
  Ok (mkStats stars prs issues 0 commits hourly_commits daily_commits
              (Z.of_nat (size contributed_repos))).

(** ** Vocabulary of the properties *)

(** Counts that can be commit counts: none is negative. *)
Definition daily_nonneg (daily_commits : gmap string Z) : Prop :=
  map_Forall (fun _ c => 0 <= c) daily_commits.

Definition hourly_nonneg (hourly_commits : gmap string (gmap Z Z)) : Prop :=
  map_Forall (fun _ row => map_Forall (fun _ c => 0 <= c) row) hourly_commits.

(** Text that holds neither [<], with which both markers start, nor a
    backslash, the only character [re.sub] reads specially in a template. *)
Definition plain (s : string) : bool :=
  negb (has_char "<" s) && negb (has_char "\" s).

(** What a paginated list hands out before it ends or fails. *)
Fixpoint delivered {A : Type} (it : paginated A) : list A :=
  match it with
  | Yield a rest => a :: delivered rest
  | StopIteration | Fails _ => []
  end.

(** The commits of the last thirty days that the API hands out, repository
    after repository; a repository whose request fails hands out none. *)
Definition delivered_commits (repos : list Repo) : list (string * Z) :=
  repo ← repos; delivered (recent_commits repo).

(** The commits of the year, over the repositories whose count arrives. *)
Definition year_total (repos : list Repo) : Z :=
  foldr (fun repo total =>
           match year_totalCount repo with
           | Ok n => n + total
           | Raise _ => total
           end) 0 repos.

Definition count_cell (day : string) (hour : Z) (l : list (string * Z)) : nat :=
  length (filter (fun c => c = (day, hour)) l).

Definition count_day (day : string) (l : list (string * Z)) : nat :=
  length (filter (fun c => c.1 = day) l).

(** ** Sample inputs *)

Definition sample_stats : Stats :=
  mkStats 12 3 4 0 345 {[ "Mon" := {[ 9 := 3; 14 := 1 ]} ]} {[ "Mon" := 10; "Tue" := 5 ]} 7.

(** A README whose section is followed by a second end marker. *)
Definition readme_two_ends : string :=
  "# Me" +:+ nl +:+ start_marker +:+ "old" +:+ end_marker +:+ " kept? " +:+ end_marker +:+ " tail".

(** A README with a start marker and no end marker. *)
Definition readme_no_end : string :=
  "# Me" +:+ nl +:+ start_marker +:+ nl +:+ "old stats" +:+ nl.

(** The tally after one more commit: the state [count_commit] leaves. *)
Definition tally_step (t : tally) (c : string * Z) : tally := (count_commit c t).2.

(** Histograms as the collector leaves them: the two have the same days, no
    day maps to an empty hour map, and no count is below 1. *)
Definition well_formed_histograms
    (hourly_commits : gmap string (gmap Z Z)) (daily_commits : gmap string Z) : Prop :=
  dom hourly_commits = dom daily_commits /\
  map_Forall (fun _ row => row <> ∅ /\ map_Forall (fun _ c => 1 <= c) row) hourly_commits /\
  map_Forall (fun _ c => 1 <= c) daily_commits.

(** ** The entry point *)



(* ===================================================================== *)
(** * Properties                                                          *)
(* ===================================================================== *)

(** * True division and rounding *)

Lemma round_half_even_ge n d N : 0 < d -> N * d <= n -> N <= round_half_even n d.
Proof.
  intros Hd H. unfold round_half_even.
  assert (Hq : N <= n / d) by (apply Z.div_le_lower_bound; lia).
  repeat case_match; lia.
Qed.

Lemma round_half_even_le n d N : 0 < d -> n <= N * d -> round_half_even n d <= N.
Proof.
  intros Hd H. unfold round_half_even.
  pose proof (Z.div_mod n d ltac:(lia)) as E.
  pose proof (Z.mod_pos_bound n d Hd) as B.
  repeat case_match; rewrite ?Z.ltb_lt, ?Z.ltb_ge in *; nia.
Qed.

Lemma round_half_even_near n d : 0 < d -> 2 * d * round_half_even n d <= 2 * n + d.
Proof.
  intros Hd. unfold round_half_even.
  pose proof (Z.div_mod n d ltac:(lia)) as E.
  pose proof (Z.mod_pos_bound n d Hd) as B.
  repeat case_match; rewrite ?Z.ltb_lt, ?Z.ltb_ge in *; nia.
Qed.

Lemma ilog2_ratio_lt n d k :
  0 < n -> 0 < d -> 0 <= k -> n < d * 2 ^ k -> ilog2_ratio n d <= k - 1.
Proof.
  intros Hn Hd Hk H. unfold ilog2_ratio.
  pose proof (Z.log2_spec n Hn) as [Ln _].
  pose proof (Z.log2_spec d Hd) as [_ Ld].
  pose proof (Z.log2_nonneg n). pose proof (Z.log2_nonneg d).
  assert (Z.log2 n - Z.log2 d <= k).
  { destruct (Z_lt_le_dec k (Z.log2 n - Z.log2 d)) as [Hlt|]; [|lia].
    exfalso.
    assert (2 ^ (Z.log2 d + 1 + k) <= 2 ^ Z.log2 n) by (apply Z.pow_le_mono_r; lia).
    rewrite Z.pow_add_r in * by lia.
    nia. }
  destruct (Z.eq_dec (Z.log2 n - Z.log2 d) k) as [->|]; [|repeat case_match; lia].
  destruct (Z.leb_spec 0 k); [|lia].
  destruct (Z.leb_spec (d * 2 ^ k) n); lia.
Qed.

Lemma true_div_pos a b :
  0 < a -> 0 < b -> ilog2_ratio a b - 52 < 0 ->
  let e := Z.max (ilog2_ratio a b - 52) (-1074) in
  true_div a b = Ok (Float (round_half_even (a * 2 ^ (- e)) b) e).
Proof.
  intros Ha Hb He e. unfold true_div.
  destruct (Z.eqb_spec b 0); [lia|].
  destruct (Z.eqb_spec a 0); [lia|].
  rewrite !Z.abs_eq by lia. fold e.
  destruct (Z.leb_spec 0 e); [lia|]. simpl.
  rewrite (Z.sgn_pos a), (Z.sgn_pos b) by lia.
  by rewrite !Z.mul_1_l.
Qed.

Lemma true_div_bounded a b K :
  0 <= a -> 0 < b -> 0 <= K < 32 -> a <= K * b ->
  exists x, true_div a b = Ok x /\ (0 <= py_int x <= K) /\ (0 <= py_round x <= K).
Proof.
  intros Ha Hb HK H.
  destruct (Z.eq_dec a 0) as [->|Hne].
  { exists (Float 0 0). unfold true_div. destruct (Z.eqb_spec b 0); [lia|].
    split; [reflexivity|].
    change (py_int (Float 0 0)) with 0. change (py_round (Float 0 0)) with 0. lia. }
  assert (Hk : ilog2_ratio a b <= 5 - 1) by (apply ilog2_ratio_lt; [..|change (2 ^ 5) with 32]; nia).
  eexists. split; [apply true_div_pos; lia|].
  set (e := Z.max (ilog2_ratio a b - 52) (-1074)).
  assert (He : e < 0) by lia.
  set (P := 2 ^ (- e)).
  assert (HP : 0 < P) by (apply Z.pow_pos_nonneg; lia).
  set (m := round_half_even (a * P) b).
  assert (Hm0 : 0 <= m) by (apply round_half_even_ge; lia).
  assert (HmK : m <= K * P) by (apply round_half_even_le; nia).
  unfold py_int, py_round. cbn [mant expo]. fold P.
  destruct (Z.leb_spec 0 e); [lia|].
  split.
  - rewrite Z.quot_div_nonneg by lia. split.
    + apply Z.div_pos; lia.
    + apply Z.div_le_upper_bound; lia.
  - split.
    + apply round_half_even_ge; lia.
    + apply round_half_even_le; lia.
Qed.

Lemma true_div_below_one a b :
  0 <= a -> a < b -> b < 2 ^ 54 ->
  exists x, true_div a b = Ok x /\ py_int x = 0.
Proof.
  intros Ha Hab Hb.
  destruct (Z.eq_dec a 0) as [->|Hne].
  { exists (Float 0 0). unfold true_div. destruct (Z.eqb_spec b 0); [lia|]. by cbn. }
  assert (Hk : ilog2_ratio a b <= 0 - 1)
    by (apply ilog2_ratio_lt; [..|change (2 ^ 0) with 1]; lia).
  eexists. split; [apply true_div_pos; lia|].
  set (e := Z.max (ilog2_ratio a b - 52) (-1074)).
  assert (He : e <= -53) by lia.
  set (P := 2 ^ (- e)).
  assert (HP : 2 ^ 53 <= P) by (apply Z.pow_le_mono_r; lia).
  set (m := round_half_even (a * P) b).
  assert (Hm0 : 0 <= m) by (apply round_half_even_ge; lia).
  assert (Hnear : 2 * b * m <= 2 * (a * P) + b) by (apply round_half_even_near; lia).
  assert (HmP : m < P).
  { change (2 ^ 54) with (2 * 2 ^ 53) in Hb. nia. }
  unfold py_int. cbn [mant expo]. fold P.
  destruct (Z.leb_spec 0 e); [lia|].
  apply Z.quot_small. lia.
Qed.

Lemma true_div_at_least_one a b K :
  0 < b -> b <= a -> 0 <= K < 32 -> a <= K * b ->
  exists x, true_div a b = Ok x /\ 1 <= py_int x.
Proof.
  intros Hb Hab HK H.
  assert (Hk : ilog2_ratio a b <= 5 - 1) by (apply ilog2_ratio_lt; [..|change (2 ^ 5) with 32]; nia).
  eexists. split; [apply true_div_pos; lia|].
  set (e := Z.max (ilog2_ratio a b - 52) (-1074)).
  assert (He : e < 0) by lia.
  set (P := 2 ^ (- e)).
  assert (HP : 0 < P) by (apply Z.pow_pos_nonneg; lia).
  set (m := round_half_even (a * P) b).
  assert (Hm : 1 * P <= m) by (apply round_half_even_ge; nia).
  unfold py_int. cbn [mant expo]. fold P.
  destruct (Z.leb_spec 0 e); [lia|].
  rewrite Z.quot_div_nonneg by lia.
  apply Z.div_le_lower_bound; lia.
Qed.

(** * Maxima and dictionaries *)

Lemma foldl_max_ge (l : list Z) x :
  x <= foldl Z.max x l /\ forall y, y ∈ l -> y <= foldl Z.max x l.
Proof.
  revert x. induction l as [|a l IH]; intros x; cbn.
  - split; [lia|]. intros y Hy. by apply elem_of_nil in Hy.
  - destruct (IH (Z.max x a)) as [H1 H2]. split; [lia|].
    intros y [->|Hy]%elem_of_cons; [lia|auto].
Qed.

Lemma foldl_max_elem (l : list Z) x : foldl Z.max x l ∈ x :: l.
Proof.
  revert x. induction l as [|a l IH]; intros x; cbn; [set_solver|].
  specialize (IH (Z.max x a)). apply elem_of_cons in IH as [->|IH].
  - destruct (Z.max_spec x a) as [[_ ->]|[_ ->]]; set_solver.
  - set_solver.
Qed.

Lemma py_max_spec (l : list Z) M :
  py_max l = Ok M -> M ∈ l /\ forall y, y ∈ l -> y <= M.
Proof.
  destruct l as [|x l]; [discriminate|]. cbn. intros [= <-].
  split; [apply foldl_max_elem|].
  destruct (foldl_max_ge l x) as [H1 H2].
  intros y [->|Hy]%elem_of_cons; auto.
Qed.

Lemma py_max_nonempty (l : list Z) : l <> [] -> exists M, py_max l = Ok M.
Proof. destruct l; [done|]. cbn. eauto. Qed.

Lemma elem_of_values {K : Type} `{Countable K} {V : Type} (d : gmap K V) (v : V) :
  v ∈ values d <-> exists k, d !! k = Some v.
Proof.
  unfold values. rewrite list_elem_of_fmap. split.
  - intros [[k v'] [-> Hin]]. exists k. by apply elem_of_map_to_list.
  - intros [k Hk]. exists (k, v). split; [done|]. by apply elem_of_map_to_list.
Qed.

Lemma truthy_empty {K : Type} `{Countable K} {V : Type} (d : gmap K V) :
  truthy d = false <-> d = ∅.
Proof.
  unfold truthy. rewrite negb_false_iff. apply bool_decide_eq_true.
Qed.

Lemma truthy_lookup {K : Type} `{Countable K} {V : Type} (d : gmap K V) k v :
  d !! k = Some v -> truthy d = true.
Proof.
  intros Hk. destruct (truthy d) eqn:E; [done|].
  apply truthy_empty in E. subst d. by rewrite lookup_empty in Hk.
Qed.

Lemma elem_of_hourly_cells (hourly_commits : gmap string (gmap Z Z)) (c : Z) :
  c ∈ hourly_cells hourly_commits <->
  exists day row hour, hourly_commits !! day = Some row /\ row !! hour = Some c.
Proof.
  unfold hourly_cells. rewrite list_elem_of_bind. split.
  - intros [row [[hour Hc]%elem_of_values [day Hrow]%elem_of_values]]. eauto.
  - intros (day & row & hour & Hrow & Hc). exists row.
    split; apply elem_of_values; eauto.
Qed.

(** ** The maxima the renderers scale against *)

Lemma daily_max_spec (daily_commits : gmap string Z) M :
  daily_nonneg daily_commits ->
  daily_max daily_commits = Ok M ->
  0 <= M /\ forall day, 0 <= day_commits daily_commits day <= M.
Proof.
  intros Hnn. unfold daily_max. destruct (truthy daily_commits) eqn:E.
  - intros [Hin Hmax]%py_max_spec.
    apply elem_of_values in Hin as [k Hk].
    assert (0 <= M) by (eapply Hnn; eauto). split; [done|].
    intros day. unfold day_commits.
    destruct (daily_commits !! day) as [c|] eqn:Hc; cbn; [|lia].
    split; [eapply Hnn; eauto|]. apply Hmax, elem_of_values. eauto.
  - apply truthy_empty in E as ->. intros [= <-]. split; [lia|].
    intros day. unfold day_commits. rewrite lookup_empty. cbn. lia.
Qed.

Lemma daily_max_ok (daily_commits : gmap string Z) :
  exists M, daily_max daily_commits = Ok M.
Proof.
  unfold daily_max. destruct (truthy daily_commits) eqn:E; [|eauto].
  apply py_max_nonempty. intros Hnil.
  assert (daily_commits = ∅) as ->.
  { apply map_to_list_empty_iff. unfold values in Hnil.
    by apply fmap_nil_inv in Hnil. }
  by rewrite (proj2 (truthy_empty ∅)) in E.
Qed.

Lemma hourly_max_spec (hourly_commits : gmap string (gmap Z Z)) M :
  hourly_nonneg hourly_commits ->
  hourly_max hourly_commits = Ok M ->
  0 <= M /\ forall day hour, 0 <= cell_commits hourly_commits day hour <= M.
Proof.
  intros Hnn. unfold hourly_max. destruct (truthy hourly_commits) eqn:E.
  - intros [Hin Hmax]%py_max_spec.
    apply elem_of_hourly_cells in Hin as (d & row & h & Hrow & Hc).
    assert (0 <= M) by (eapply Hnn; eauto). split; [done|].
    intros day hour. unfold cell_commits.
    destruct (hourly_commits !! day) as [row'|] eqn:Hrow'; cbn;
      [|rewrite lookup_empty; cbn; lia].
    destruct (row' !! hour) as [c|] eqn:Hc'; cbn; [|lia].
    split; [eapply Hnn; eauto|]. apply Hmax, elem_of_hourly_cells. eauto 6.
  - apply truthy_empty in E as ->. intros [= <-]. split; [lia|].
    intros day hour. unfold cell_commits. rewrite lookup_empty. cbn.
    rewrite lookup_empty. cbn. lia.
Qed.

Lemma hourly_max_ok (hourly_commits : gmap string (gmap Z Z)) day row hour c :
  hourly_commits !! day = Some row -> row !! hour = Some c ->
  exists M, hourly_max hourly_commits = Ok M /\ c <= M.
Proof.
  intros Hrow Hc. unfold hourly_max. rewrite (truthy_lookup _ _ _ Hrow).
  assert (Hin : c ∈ hourly_cells hourly_commits)
    by (apply elem_of_hourly_cells; eauto).
  destruct (py_max_nonempty (hourly_cells hourly_commits)) as [M HM].
  { intros Hnil. rewrite Hnil in Hin. by apply elem_of_nil in Hin. }
  exists M. split; [done|]. by apply (py_max_spec _ _ HM).
Qed.

Lemma for_each_ok {A B : Type} (f : A -> result B) (l : list A) :
  (forall x, x ∈ l -> exists y, f x = Ok y) ->
  exists ys, for_each f l = Ok ys /\ Forall2 (fun x y => f x = Ok y) l ys.
Proof.
  induction l as [|x l IH]; intros Hf; cbn.
  - exists []. split; [done|constructor].
  - destruct (Hf x) as [y Hy]; [set_solver|].
    destruct IH as (ys & Hys & Hall); [intros; apply Hf; set_solver|].
    exists (y :: ys). rewrite Hy. cbn. rewrite Hys. cbn.
    split; [done|by constructor].
Qed.

(** * Indices of the renderers *)

Lemma scale_round_bounded c k M :
  0 <= c <= M -> 0 <= k < 32 ->
  exists n, scale_round c k M = Ok n /\ 0 <= n <= k.
Proof.
  intros Hc Hk. unfold scale_round. destruct (Z.ltb_spec 0 M); [|exists 0; split; [done|lia]].
  destruct (true_div_bounded (c * k) M k) as (x & -> & _ & Hr); [nia|lia|lia|nia|].
  cbn. eauto.
Qed.

Lemma scale_round_zero k M : scale_round 0 k M = Ok 0.
Proof.
  unfold scale_round. destruct (Z.ltb_spec 0 M); [|done].
  unfold true_div. destruct (Z.eqb_spec M 0); [lia|]. done.
Qed.

Lemma intensity_bounded (hourly_commits : gmap string (gmap Z Z)) M day hour :
  0 <= cell_commits hourly_commits day hour <= M ->
  exists i, intensity hourly_commits M day hour = Ok i /\ 0 <= i <= 6.
Proof.
  intros Hc. unfold intensity. destruct (Z.ltb_spec 0 M); [|exists 0; split; [done|lia]].
  change (Z.of_nat (length intensity_chars) - 1) with 6.
  destruct (true_div_bounded (cell_commits hourly_commits day hour * 6) M 6)
    as (x & -> & Hi & _); [lia..|].
  cbn. eauto.
Qed.

Lemma glyph_of_index i :
  0 <= i <= 6 ->
  exists glyph, py_index intensity_chars i = Ok glyph /\
                intensity_chars !! Z.to_nat i = Some glyph /\
                (glyph = "░░" <-> i = 0).
Proof.
  intros Hi.
  assert (i = 0 \/ i = 1 \/ i = 2 \/ i = 3 \/ i = 4 \/ i = 5 \/ i = 6) as H by lia.
  destruct H as [->|[->|[->|[->|[->|[->| ->]]]]]];
    eexists; (split; [reflexivity|]); (split; [reflexivity|]); split; done.
Qed.

Lemma heatmap_cell_bounded (hourly_commits : gmap string (gmap Z Z)) M day hour :
  0 <= cell_commits hourly_commits day hour <= M ->
  exists i glyph,
    intensity hourly_commits M day hour = Ok i /\ 0 <= i <= 6 /\
    heatmap_cell hourly_commits M day hour = Ok glyph /\
    intensity_chars !! Z.to_nat i = Some glyph.
Proof.
  intros Hc. destruct (intensity_bounded _ _ _ _ Hc) as (i & Hi & Hb).
  destruct (glyph_of_index i Hb) as (g & Hg & Hl & _).
  exists i, g. unfold heatmap_cell. rewrite Hi. cbn. auto.
Qed.

(** C3.  For a daily and an hourly histogram of counts that are not negative,
    each holding a count that is not zero, every intensity that
    [create_heatmap] computes lies in [0, 6] and selects a glyph of the
    seven-glyph palette, every bar length that [create_daily_commit_bars]
    computes lies in [0, 20], and both renderers return. *)
Theorem rendered_indices_in_bounds
    (daily_commits : gmap string Z) (hourly_commits : gmap string (gmap Z Z)) :
  daily_nonneg daily_commits ->
  hourly_nonneg hourly_commits ->
  (exists day c, daily_commits !! day = Some c /\ c <> 0) ->
  (exists day row hour c,
      hourly_commits !! day = Some row /\ row !! hour = Some c /\ c <> 0) ->
  (exists max_commits,
      hourly_max hourly_commits = Ok max_commits /\
      forall day hour, exists i glyph,
        intensity hourly_commits max_commits day hour = Ok i /\ 0 <= i <= 6 /\
        heatmap_cell hourly_commits max_commits day hour = Ok glyph /\
        intensity_chars !! Z.to_nat i = Some glyph) /\
  (exists max_commits,
      daily_max daily_commits = Ok max_commits /\
      forall day, exists n,
        bar_length daily_commits max_commits day = Ok n /\ 0 <= n <= 20) /\
  (exists heatmap, create_heatmap hourly_commits = Ok heatmap) /\
  (exists bars, create_daily_commit_bars daily_commits = Ok bars).
Proof.
  intros Hd Hh _ (day0 & row0 & hour0 & c0 & Hrow0 & Hc0 & _).
  destruct (hourly_max_ok _ _ _ _ _ Hrow0 Hc0) as (Mh & HMh & _).
  destruct (hourly_max_spec _ _ Hh HMh) as [_ Hcells].
  destruct (daily_max_ok daily_commits) as [Md HMd].
  destruct (daily_max_spec _ _ Hd HMd) as [_ Hdays].
  assert (Hcell : forall day hour, exists i glyph,
    intensity hourly_commits Mh day hour = Ok i /\ 0 <= i <= 6 /\
    heatmap_cell hourly_commits Mh day hour = Ok glyph /\
    intensity_chars !! Z.to_nat i = Some glyph)
    by (intros; by apply heatmap_cell_bounded).
  assert (Hbar : forall day, exists n,
    bar_length daily_commits Md day = Ok n /\ 0 <= n <= 20)
    by (intros; apply scale_round_bounded; [apply Hdays|lia]).
  split; [eauto|]. split; [eauto|]. split.
  - unfold create_heatmap. rewrite HMh. cbn [mbind result_bind].
    destruct (for_each_ok (heatmap_row hourly_commits Mh) days) as (rows & -> & _);
      [|cbn [mbind result_bind]; eauto].
    intros day _. unfold heatmap_row.
    destruct (for_each_ok (heatmap_cell hourly_commits Mh day) hours) as (cells & -> & _);
      [|cbn [mbind result_bind]; eauto].
    intros hour _. destruct (Hcell day hour) as (i & g & _ & _ & -> & _). eauto.
  - unfold create_daily_commit_bars. rewrite HMd. cbn [mbind result_bind].
    destruct (for_each_ok (daily_bar daily_commits Md) days) as (bars & -> & _);
      [|cbn [mbind result_bind]; eauto].
    intros day _. unfold daily_bar.
    destruct (Hbar day) as (n & -> & _).
    destruct (scale_round_bounded (day_commits daily_commits day) 24 Md) as (h & Hh' & _);
      [apply Hdays|lia|].
    unfold bar_hours. rewrite Hh'. cbn [mbind result_bind]. eauto.
Qed.

Lemma rendered_indices_in_bounds_witness :
  exists i n,
    intensity {[ "Tue" := {[ 7 := 2; 23 := 5 ]} ]} 5 "Tue" 7 = Ok i /\ 0 <= i <= 6 /\
    bar_length {[ "Tue" := 7; "Sun" := 3 ]} 7 "Sun" = Ok n /\ 0 <= n <= 20.
Proof.
  destruct (rendered_indices_in_bounds
              {[ "Tue" := 7; "Sun" := 3 ]} {[ "Tue" := {[ 7 := 2; 23 := 5 ]} ]})
    as ((Mh & HMh & Hcell) & (Md & HMd & Hbar) & _).
  - unfold daily_nonneg. apply (bool_decide_unpack _). vm_compute. reflexivity.
  - unfold hourly_nonneg. apply (bool_decide_unpack _). vm_compute. reflexivity.
  - exists "Tue", 7. split; [reflexivity|lia].
  - exists "Tue", {[ 7 := 2; 23 := 5 ]}, 7, 2. split; [reflexivity|]. split; [reflexivity|lia].
  - assert (Mh = 5) as -> by (vm_compute in HMh; congruence).
    assert (Md = 7) as -> by (vm_compute in HMd; congruence).
    destruct (Hcell "Tue" 7) as (i & g & Hi & Hb & _).
    destruct (Hbar "Sun") as (n & Hn & Hnb).
    exists i, n. auto.
Defined.

(** * The renderers on given histograms *)

(** C4.  When every count of the daily histogram is zero, which includes the
    empty histogram, [create_daily_commit_bars] returns (no division is
    attempted on a zero maximum, none raises), every bar length is 0 and no
    line of the chart holds a bar character. *)
Theorem zero_daily_commits_zero_bars (daily_commits : gmap string Z) :
  map_Forall (fun _ c => c = 0) daily_commits ->
  (exists max_commits,
      daily_max daily_commits = Ok max_commits /\
      forall day, bar_length daily_commits max_commits day = Ok 0) /\
  create_daily_commit_bars daily_commits =
    Ok (join nl [ "Mon      ╠╣ 0hrs"; "Tue      ╠╣ 0hrs"; "Wed      ╠╣ 0hrs";
                  "Thu      ╠╣ 0hrs"; "Fri      ╠╣ 0hrs"; "Sat      ╠╣ 0hrs";
                  "Sun      ╠╣ 0hrs"; scale ]).
Proof.
  intros Hz.
  assert (Hday : forall day, day_commits daily_commits day = 0).
  { intros day. unfold day_commits.
    destruct (daily_commits !! day) as [c|] eqn:Hc; [|done]. exact (Hz _ _ Hc). }
  destruct (daily_max_ok daily_commits) as [M HM].
  assert (Hbar : forall k day, scale_round (day_commits daily_commits day) k M = Ok 0)
    by (intros; rewrite Hday; apply scale_round_zero).
  split.
  - exists M. split; [done|]. intros day. apply Hbar.
  - unfold create_daily_commit_bars. rewrite HM. cbn [mbind result_bind].
    unfold days, for_each, daily_bar, bar_hours, bar_length. rewrite !Hbar.
    vm_compute. reflexivity.
Qed.

Lemma zero_daily_commits_zero_bars_witness :
  bar_length {[ "Mon" := 0; "Thu" := 0 ]} 0 "Thu" = Ok 0 /\
  bar_length (∅ : gmap string Z) 1 "Thu" = Ok 0.
Proof.
  split.
  - destruct (zero_daily_commits_zero_bars {[ "Mon" := 0; "Thu" := 0 ]}) as [(M & HM & Hbar) _].
    + apply (bool_decide_unpack _). vm_compute. reflexivity.
    + assert (M = 0) as -> by (vm_compute in HM; congruence). apply Hbar.
  - destruct (zero_daily_commits_zero_bars ∅) as [(M & HM & Hbar) _].
    + apply (bool_decide_unpack _). vm_compute. reflexivity.
    + assert (M = 1) as -> by (vm_compute in HM; congruence). apply Hbar.
Defined.

(** C5.  For the hourly histogram [{Mon: {9: 3, 14: 1}}] the maximum is 3;
    the cell Mon/9 gets intensity 6, the full glyph; the cell Mon/14 gets
    intensity 2, above 0 and below 6; every other cell gets intensity 0, the
    empty glyph; and the rendered grid is the one shown. *)
Theorem heatmap_example :
  let hourly_commits : gmap string (gmap Z Z) := {[ "Mon" := {[ 9 := 3; 14 := 1 ]} ]} in
  hourly_max hourly_commits = Ok 3 /\
  intensity hourly_commits 3 "Mon" 9 = Ok 6 /\
  heatmap_cell hourly_commits 3 "Mon" 9 = Ok "██" /\
  intensity hourly_commits 3 "Mon" 14 = Ok 2 /\
  heatmap_cell hourly_commits 3 "Mon" 14 = Ok "▒▒" /\
  (forall day hour,
      (day, hour) <> ("Mon", 9) -> (day, hour) <> ("Mon", 14) ->
      intensity hourly_commits 3 day hour = Ok 0 /\
      heatmap_cell hourly_commits 3 day hour = Ok "░░") /\
  create_heatmap hourly_commits =
    Ok (join nl [
      heatmap_header;
      "Mon   ░░ ░░ ░░ ░░ ░░ ░░ ░░ ░░ ░░ ██ ░░ ░░ ░░ ░░ ▒▒ ░░ ░░ ░░ ░░ ░░ ░░ ░░ ░░ ░░";
      "Tue   ░░ ░░ ░░ ░░ ░░ ░░ ░░ ░░ ░░ ░░ ░░ ░░ ░░ ░░ ░░ ░░ ░░ ░░ ░░ ░░ ░░ ░░ ░░ ░░";
      "Wed   ░░ ░░ ░░ ░░ ░░ ░░ ░░ ░░ ░░ ░░ ░░ ░░ ░░ ░░ ░░ ░░ ░░ ░░ ░░ ░░ ░░ ░░ ░░ ░░";
      "Thu   ░░ ░░ ░░ ░░ ░░ ░░ ░░ ░░ ░░ ░░ ░░ ░░ ░░ ░░ ░░ ░░ ░░ ░░ ░░ ░░ ░░ ░░ ░░ ░░";
      "Fri   ░░ ░░ ░░ ░░ ░░ ░░ ░░ ░░ ░░ ░░ ░░ ░░ ░░ ░░ ░░ ░░ ░░ ░░ ░░ ░░ ░░ ░░ ░░ ░░";
      "Sat   ░░ ░░ ░░ ░░ ░░ ░░ ░░ ░░ ░░ ░░ ░░ ░░ ░░ ░░ ░░ ░░ ░░ ░░ ░░ ░░ ░░ ░░ ░░ ░░";
      "Sun   ░░ ░░ ░░ ░░ ░░ ░░ ░░ ░░ ░░ ░░ ░░ ░░ ░░ ░░ ░░ ░░ ░░ ░░ ░░ ░░ ░░ ░░ ░░ ░░" ]).
Proof.
  intros hourly_commits.
  do 5 (split; [vm_compute; reflexivity|]).
  split; [|vm_compute; reflexivity].
  intros day hour H9 H14.
  assert (Hc : cell_commits hourly_commits day hour = 0).
  { unfold cell_commits, hourly_commits.
    destruct (decide (day = "Mon")) as [->|Hne].
    - rewrite lookup_singleton_eq. cbn [default].
      unfold id. rewrite lookup_insert_ne, lookup_singleton_ne by congruence. done.
    - rewrite lookup_singleton_ne by congruence. cbn [default]. by rewrite lookup_empty. }
  unfold heatmap_cell, intensity. rewrite Hc. split; reflexivity.
Qed.

(** C6.  For the daily histogram [{Mon: 10, Tue: 5}] the bar of Mon has
    length 20, the bar of Tue has length 10, every other day has length 0,
    and the chart is the one shown. *)
Theorem bars_example :
  let daily_commits : gmap string Z := {[ "Mon" := 10; "Tue" := 5 ]} in
  daily_max daily_commits = Ok 10 /\
  bar_length daily_commits 10 "Mon" = Ok 20 /\
  bar_length daily_commits 10 "Tue" = Ok 10 /\
  (forall day, day <> "Mon" -> day <> "Tue" -> bar_length daily_commits 10 day = Ok 0) /\
  create_daily_commit_bars daily_commits =
    Ok (join nl [
      "Mon      ╠" +:+ str_repeat "═" 20 +:+ "╣ 24hrs";
      "Tue      ╠" +:+ str_repeat "═" 10 +:+ "╣ 12hrs";
      "Wed      ╠╣ 0hrs";
      "Thu      ╠╣ 0hrs";
      "Fri      ╠╣ 0hrs";
      "Sat      ╠╣ 0hrs";
      "Sun      ╠╣ 0hrs";
      scale ]).
Proof.
  intros daily_commits.
  do 3 (split; [vm_compute; reflexivity|]).
  split; [|vm_compute; reflexivity].
  intros day HM HT. unfold bar_length, day_commits, daily_commits.
  rewrite lookup_insert_ne, lookup_singleton_ne by congruence. reflexivity.
Qed.

(** C10.  On a histogram that has days but whose every day maps to an empty
    hour map, [create_heatmap] raises [ValueError]: its guard looks at the
    outer dict only and [max] gets an empty sequence. *)
Theorem create_heatmap_empty_rows_raises (hourly_commits : gmap string (gmap Z Z)) :
  hourly_commits <> ∅ ->
  map_Forall (fun _ day_commits => day_commits = ∅) hourly_commits ->
  create_heatmap hourly_commits = Raise ValueError.
Proof.
  intros Hne Hrows. unfold create_heatmap, hourly_max.
  destruct (truthy hourly_commits) eqn:E; [|by apply truthy_empty in E].
  destruct (hourly_cells hourly_commits) as [|c cs] eqn:Hcells; [done|].
  assert (Hin : c ∈ hourly_cells hourly_commits) by (rewrite Hcells; set_solver).
  apply elem_of_hourly_cells in Hin as (day & row & hour & Hrow & Hc).
  rewrite (Hrows _ _ Hrow), lookup_empty in Hc. discriminate.
Qed.

Lemma create_heatmap_empty_rows_raises_witness :
  create_heatmap {[ "Mon" := ∅ ]} = Raise ValueError.
Proof.
  apply create_heatmap_empty_rows_raises.
  - intros H. apply (f_equal (fun m => m !! "Mon")) in H. vm_compute in H. discriminate.
  - apply (bool_decide_unpack _). vm_compute. reflexivity.
Defined.

(** * The empty glyph *)

(** C9, amended.  For an hourly histogram of counts that are not negative
    whose maximum [max_commits] is positive and below [2^54], a cell with
    count [c] gets intensity 0, and so the empty glyph, exactly when
    [6 * c < max_commits]. *)
Theorem empty_glyph_iff (hourly_commits : gmap string (gmap Z Z)) max_commits day hour :
  hourly_nonneg hourly_commits ->
  hourly_max hourly_commits = Ok max_commits ->
  0 < max_commits < 2 ^ 54 ->
  (intensity hourly_commits max_commits day hour = Ok 0 <->
   6 * cell_commits hourly_commits day hour < max_commits) /\
  (heatmap_cell hourly_commits max_commits day hour = Ok "░░" <->
   6 * cell_commits hourly_commits day hour < max_commits).
Proof.
  intros Hnn HM [Hpos Hlt].
  destruct (hourly_max_spec _ _ Hnn HM) as [_ Hcells].
  specialize (Hcells day hour).
  set (c := cell_commits hourly_commits day hour) in *.
  unfold heatmap_cell, intensity. fold c.
  destruct (Z.ltb_spec 0 max_commits); [|lia].
  change (Z.of_nat (length intensity_chars) - 1) with 6.
  destruct (Z_lt_le_dec (6 * c) max_commits) as [Hsmall|Hbig].
  - destruct (true_div_below_one (c * 6) max_commits) as (x & -> & Hx); [lia..|].
    cbn [mbind result_bind]. rewrite Hx. split; split; auto.
  - destruct (true_div_at_least_one (c * 6) max_commits 6) as (x & Hdiv & Hx); [lia..|].
    destruct (true_div_bounded (c * 6) max_commits 6) as (x' & Hdiv' & Hb & _); [lia..|].
    rewrite Hdiv in Hdiv'. injection Hdiv' as <-. rewrite Hdiv.
    cbn [mbind result_bind].
    destruct (glyph_of_index (py_int x)) as (g & -> & _ & Hg); [lia|].
    split; split; try lia.
    + intros [= E]. lia.
    + intros [= E]. apply Hg in E. lia.
Qed.

Lemma empty_glyph_iff_witness :
  heatmap_cell {[ "Mon" := {[ 9 := 13; 14 := 2 ]} ]} 13 "Mon" 14 = Ok "░░" <->
  6 * cell_commits {[ "Mon" := {[ 9 := 13; 14 := 2 ]} ]} "Mon" 14 < 13.
Proof.
  apply (empty_glyph_iff {[ "Mon" := {[ 9 := 13; 14 := 2 ]} ]} 13 "Mon" 14).
  - unfold hourly_nonneg. apply (bool_decide_unpack _). vm_compute. reflexivity.
  - vm_compute. reflexivity.
  - split; [lia|]. vm_compute. reflexivity.
Defined.

(** C9 as stated, for every positive maximum, fails: with maximum [2^55] the
    count 6004799503160661 has [6 * c = 2^55 - 2], yet the float quotient
    rounds to 1.0 and the cell gets intensity 1. *)
Lemma empty_glyph_iff_counterexample :
  let hourly_commits : gmap string (gmap Z Z) :=
    {[ "Mon" := {[ 0 := 2 ^ 55; 1 := 6004799503160661 ]} ]} in
  hourly_max hourly_commits = Ok (2 ^ 55) /\
  0 < 2 ^ 55 /\
  cell_commits hourly_commits "Mon" 1 = 6004799503160661 /\
  intensity hourly_commits (2 ^ 55) "Mon" 1 = Ok 1 /\
  heatmap_cell hourly_commits (2 ^ 55) "Mon" 1 = Ok "▒░" /\
  ~ (intensity hourly_commits (2 ^ 55) "Mon" 1 = Ok 0 <->
     6 * cell_commits hourly_commits "Mon" 1 < 2 ^ 55).
Proof.
  intros hourly_commits.
  do 5 (split; [vm_compute; reflexivity|]).
  intros [_ H].
  assert (Hi : intensity hourly_commits (2 ^ 55) "Mon" 1 = Ok 1) by (vm_compute; reflexivity).
  rewrite Hi in H. discriminate H. vm_compute. reflexivity.
Qed.

(** * Strings *)

Section strings.
Local Arguments String.append : simpl nomatch.
Local Open Scope nat_scope.

Lemma app_nil_r s : s +:+ "" = s.
Proof. induction s; simpl; congruence. Qed.

Lemma app_assoc s t u : (s +:+ t) +:+ u = s +:+ t +:+ u.
Proof. induction s; simpl; congruence. Qed.

Lemma length_app s t : String.length (s +:+ t) = String.length s + String.length t.
Proof. induction s; simpl; congruence. Qed.

Lemma drop_str_0 s : drop_str 0 s = s.
Proof. by destruct s. Qed.

Lemma drop_str_app s t : drop_str (String.length s) (s +:+ t) = t.
Proof. induction s; simpl; [apply drop_str_0|done]. Qed.

Lemma take_str_app s t : take_str (String.length s) (s +:+ t) = s.
Proof. induction s; simpl; [by destruct t|congruence]. Qed.

Lemma take_drop n s : take_str n s +:+ drop_str n s = s.
Proof.
  revert s. induction n as [|n IH]; intros [|c s]; simpl; try done.
  by rewrite IH.
Qed.

Lemma drop_str_empty n : drop_str n "" = "".
Proof. by destruct n. Qed.

Lemma drop_drop a b s : drop_str a (drop_str b s) = drop_str (b + a) s.
Proof.
  revert s. induction b as [|b IH]; intros s; simpl.
  - done.
  - destruct s; [apply drop_str_empty|apply IH].
Qed.

Lemma length_drop n s : String.length (drop_str n s) = String.length s - n.
Proof.
  revert s. induction n as [|n IH]; intros [|c s]; simpl; try done; lia.
Qed.

Lemma length_take n s : n <= String.length s -> String.length (take_str n s) = n.
Proof.
  revert s. induction n as [|n IH]; intros [|c s]; simpl; try done; try lia.
  intros. rewrite IH; lia.
Qed.

Lemma prefix_nil s : String.prefix "" s = true.
Proof. by destruct s. Qed.

Lemma prefix_cons a p c s :
  String.prefix (String a p) (String c s) = bool_decide (a = c) && String.prefix p s.
Proof.
  simpl. destruct (ascii_dec a c) as [->|Hne].
  - by rewrite bool_decide_true.
  - by rewrite bool_decide_false.
Qed.

Lemma prefix_app p s : String.prefix p (p +:+ s) = true.
Proof.
  induction p as [|a p IH]; [apply prefix_nil|].
  change (String a p +:+ s) with (String a (p +:+ s)).
  rewrite prefix_cons, IH. by rewrite bool_decide_true.
Qed.

Lemma prefix_split p s :
  String.prefix p s = true -> s = p +:+ drop_str (String.length p) s.
Proof.
  revert s. induction p as [|a p IH]; intros s H.
  - by rewrite drop_str_0.
  - destruct s as [|c s]; [done|].
    rewrite prefix_cons in H. apply andb_true_iff in H as [Hac Hp].
    apply bool_decide_eq_true in Hac as ->. simpl. f_equal. by apply IH.
Qed.

(** A prefix that lacks the character [c] cannot reach across a [c]. *)
Lemma prefix_through_char p x c y :
  has_char c p = false ->
  String.prefix p (x +:+ String c y) = true -> String.prefix p x = true.
Proof.
  revert x. induction p as [|a p IH]; intros x Hc H; [apply prefix_nil|].
  simpl in Hc. apply orb_false_iff in Hc as [Hac Hp].
  apply bool_decide_eq_false in Hac.
  destruct x as [|b x].
  - change ("" +:+ String c y) with (String c y) in H.
    rewrite prefix_cons in H. apply andb_true_iff in H as [E _].
    by apply bool_decide_eq_true in E.
  - change (String b x +:+ String c y) with (String b (x +:+ String c y)) in H.
    rewrite prefix_cons in *. apply andb_true_iff in H as [-> H].
    by rewrite (IH x).
Qed.

(** Whether [p] is a prefix is decided by the first [length p] characters. *)
Lemma prefix_app_long p x y :
  String.length p <= String.length x ->
  String.prefix p (x +:+ y) = String.prefix p x.
Proof.
  revert x. induction p as [|a p IH]; intros x Hlen; [by rewrite !prefix_nil|].
  destruct x as [|b x]; simpl in Hlen; [lia|].
  change (String b x +:+ y) with (String b (x +:+ y)).
  rewrite !prefix_cons, IH; [done|lia].
Qed.

Lemma contains_prefix sub s : String.prefix sub s = true -> contains sub s = true.
Proof. intros H. destruct s; simpl in *; by rewrite H. Qed.

Lemma contains_cons sub c s :
  contains sub (String c s) = String.prefix sub (String c s) || contains sub s.
Proof. done. Qed.

(** ** [find] and [rfind] *)

Lemma find_cons sub c s :
  find sub (String c s) =
  if String.prefix sub (String c s) then Some 0 else S <$> find sub s.
Proof. done. Qed.

Lemma rfind_cons sub c s :
  rfind sub (String c s) =
  match rfind sub s with
  | Some i => Some (S i)
  | None => if String.prefix sub (String c s) then Some 0 else None
  end.
Proof. done. Qed.

Lemma find_None sub s : find sub s = None <-> contains sub s = false.
Proof.
  induction s as [|c s IH].
  - destruct sub; simpl; split; done.
  - rewrite contains_cons, find_cons.
    destruct (String.prefix sub (String c s)); simpl; [split; done|].
    by rewrite fmap_None.
Qed.

Lemma find_prefix sub s i :
  find sub s = Some i -> String.prefix sub (drop_str i s) = true.
Proof.
  revert i. induction s as [|c s IH]; intros i.
  - destruct sub; simpl; [by intros [= <-]|done].
  - rewrite find_cons. destruct (String.prefix sub (String c s)) eqn:E.
    + by intros [= <-].
    + destruct (find sub s) as [i'|]; [|done]. intros [= <-]. by apply IH.
Qed.

Lemma find_le sub s i : find sub s = Some i -> i <= String.length s.
Proof.
  revert i. induction s as [|c s IH]; intros i.
  - destruct sub; simpl; [intros [= <-]; lia|done].
  - rewrite find_cons. destruct (String.prefix sub (String c s)).
    + intros [= <-]. lia.
    + destruct (find sub s) as [i'|]; [|done]. intros [= <-].
      specialize (IH _ eq_refl). simpl. lia.
Qed.

Lemma find_length sub s i :
  find sub s = Some i -> i + String.length sub <= String.length s.
Proof.
  intros H. pose proof (find_le _ _ _ H).
  apply find_prefix, prefix_split in H.
  apply (f_equal String.length) in H. rewrite length_app, !length_drop in H. lia.
Qed.

(** Before its first occurrence, [sub] starts nowhere: the scan of the
    prefix depends on the first occurrence only. *)
Lemma find_take sub s i y :
  find sub s = Some i -> find sub (take_str i s +:+ sub +:+ y) = Some i.
Proof.
  revert i. induction s as [|c s IH]; intros i.
  - destruct sub; simpl; [|done]. intros [= <-]. by destruct y.
  - rewrite find_cons. destruct (String.prefix sub (String c s)) eqn:E.
    + intros [= <-]. simpl.
      change ("" +:+ sub +:+ y) with (sub +:+ y).
      destruct (sub +:+ y) eqn:Ey.
      * destruct sub; [done|discriminate].
      * rewrite find_cons, <- Ey, prefix_app. done.
    + destruct (find sub s) as [i'|] eqn:Hf; [|done]. intros [= <-].
      change (take_str (S i') (String c s) +:+ sub +:+ y)
        with (String c (take_str i' s +:+ sub +:+ y)).
      rewrite find_cons, (IH _ eq_refl).
      assert (String.prefix sub (String c (take_str i' s +:+ sub +:+ y)) = false) as ->; [|done].
      rewrite <- E.
      pose proof (find_prefix _ _ _ Hf) as Hp. apply prefix_split in Hp.
      rewrite <- (take_drop i' s) at 2. rewrite Hp.
      change (String c (?a +:+ ?b)) with (String c a +:+ b).
      rewrite <- !(app_assoc (String c (take_str i' s)) sub).
      rewrite !(prefix_app_long sub (String c (take_str i' s) +:+ sub));
        [done|rewrite length_app; lia..].
Qed.

Lemma rfind_empty sub : rfind sub "" = if String.prefix sub "" then Some 0 else None.
Proof. done. Qed.

Lemma rfind_app_Some sub x y m :
  rfind sub y = Some m -> rfind sub (x +:+ y) = Some (String.length x + m).
Proof.
  intros H. induction x as [|c x IH]; [done|].
  change (String c x +:+ y) with (String c (x +:+ y)).
  by rewrite rfind_cons, IH.
Qed.

Lemma rfind_le sub s j : rfind sub s = Some j -> j <= String.length s.
Proof.
  revert j. induction s as [|c s IH]; intros j.
  - destruct sub; simpl; [intros [= <-]; lia|done].
  - rewrite rfind_cons. destruct (rfind sub s) as [j'|].
    + intros [= <-]. specialize (IH _ eq_refl). simpl. lia.
    + destruct (String.prefix sub (String c s)); [|done]. intros [= <-]. lia.
Qed.

Lemma rfind_prefix sub s j :
  rfind sub s = Some j -> String.prefix sub (drop_str j s) = true.
Proof.
  revert j. induction s as [|c s IH]; intros j.
  - destruct sub; simpl; [by intros [= <-]|done].
  - rewrite rfind_cons. destruct (rfind sub s) as [j'|].
    + intros [= <-]. by apply IH.
    + destruct (String.prefix sub (String c s)) eqn:E; [|done]. by intros [= <-].
Qed.

Lemma rfind_length sub s j :
  rfind sub s = Some j -> j + String.length sub <= String.length s.
Proof.
  intros H. pose proof (rfind_le _ _ _ H).
  apply rfind_prefix, prefix_split in H.
  apply (f_equal String.length) in H. rewrite length_app, !length_drop in H. lia.
Qed.

(** [rfind] on a suffix, for a [sub] that is not empty. *)
Lemma rfind_drop_None sub s n :
  String.prefix sub "" = false ->
  rfind sub s = None -> rfind sub (drop_str n s) = None.
Proof.
  intros Hsub. revert s. induction n as [|n IH]; intros s H; [done|].
  destruct s as [|c s]; [done|]. simpl. apply IH.
  rewrite rfind_cons in H. by destruct (rfind sub s).
Qed.

Lemma rfind_drop sub s n j :
  String.prefix sub "" = false ->
  rfind sub s = Some j ->
  rfind sub (drop_str n s) = if decide (n <= j) then Some (j - n) else None.
Proof.
  intros Hsub. revert s j. induction n as [|n IH]; intros s j H.
  - simpl. rewrite H. by rewrite Nat.sub_0_r.
  - destruct s as [|c s]; [by rewrite rfind_empty, Hsub in H|].
    simpl. rewrite rfind_cons in H. destruct (rfind sub s) as [j'|] eqn:Hr.
    + injection H as <-. rewrite (IH _ _ Hr).
      repeat case_decide; try lia; done.
    + destruct (String.prefix sub (String c s)); [|done]. injection H as <-.
      rewrite rfind_drop_None by done. by case_decide; [lia|].
Qed.

(** Where no character of [x] is the first character of [sub], no
    occurrence of [sub] starts in [x]. *)
Lemma rfind_skip a sub x y :
  has_char a x = false ->
  rfind (String a sub) (x +:+ y) = (fun m => String.length x + m) <$> rfind (String a sub) y.
Proof.
  intros H. induction x as [|c x IH].
  - change ("" +:+ y) with y. by destruct (rfind (String a sub) y).
  - simpl in H. apply orb_false_iff in H as [Hc Hx].
    change (String c x +:+ y) with (String c (x +:+ y)).
    apply bool_decide_eq_false in Hc.
    rewrite rfind_cons, (IH Hx), prefix_cons.
    rewrite bool_decide_false by congruence.
    by destruct (rfind (String a sub) y).
Qed.

Lemma find_skip a sub x y :
  has_char a x = false ->
  find (String a sub) (x +:+ y) = (fun m => String.length x + m) <$> find (String a sub) y.
Proof.
  intros H. induction x as [|c x IH].
  - change ("" +:+ y) with y. by destruct (find (String a sub) y).
  - simpl in H. apply orb_false_iff in H as [Hc Hx].
    change (String c x +:+ y) with (String c (x +:+ y)).
    apply bool_decide_eq_false in Hc.
    rewrite find_cons, (IH Hx), prefix_cons.
    rewrite bool_decide_false by congruence.
    by destruct (find (String a sub) y).
Qed.

(** A text without [sub], then a character that [sub] lacks: no
    occurrence of [sub] starts before what follows. *)
Lemma find_after_char sub x c y :
  contains sub x = false -> has_char c sub = false -> String.prefix sub "" = false ->
  find sub (x +:+ String c y) = (fun m => S (String.length x) + m) <$> find sub y.
Proof.
  intros Hx Hc Hsub. induction x as [|b x IH].
  - change ("" +:+ String c y) with (String c y). rewrite find_cons.
    destruct (String.prefix sub (String c y)) eqn:E.
    + apply (prefix_through_char sub "" c y Hc) in E. congruence.
    + by destruct (find sub y).
  - rewrite contains_cons in Hx. apply orb_false_iff in Hx as [Hp Hx].
    change (String b x +:+ String c y) with (String b (x +:+ String c y)).
    rewrite find_cons, (IH Hx).
    destruct (String.prefix sub (String b (x +:+ String c y))) eqn:E.
    + apply (prefix_through_char sub (String b x) c y Hc) in E. congruence.
    + by destruct (find sub y).
Qed.
End strings.

(** * The scan of [re.sub] for a pattern [(sm).*(em)] *)

Section scan.
Local Open Scope nat_scope.
Variables sm em : string.
Hypothesis em_nonempty : String.prefix em "" = false.
Hypothesis sm_nonempty : String.prefix sm "" = false.

Local Abbreviation pat := (Cat (Group (Lit sm)) (Cat AnyStar (Group (Lit em)))).

Lemma any_star_cons k c s :
  any_star k (String c s) =
  match any_star k s with
  | Some t => Some t
  | None => k (String c s)
  end.
Proof. done. Qed.

(** [.*] followed by a literal stops at the last occurrence of the literal. *)
Lemma any_star_rfind sub u :
  any_star (fun t => if String.prefix sub t
                     then Some (drop_str (String.length sub) t) else None) u =
  (fun m => drop_str (m + String.length sub) u) <$> rfind sub u.
Proof.
  induction u as [|c u IH].
  - destruct sub; reflexivity.
  - rewrite any_star_cons, IH, rfind_cons.
    destruct (rfind sub u) as [m|]; [done|].
    by destruct (String.prefix sub (String c u)).
Qed.

Lemma rmatch_pat s :
  rmatch pat s Some =
  if String.prefix sm s
  then (fun m => drop_str (String.length sm + (m + String.length em)) s)
         <$> rfind em (drop_str (String.length sm) s)
  else None.
Proof.
  cbn [rmatch]. destruct (String.prefix sm s); [|done].
  rewrite any_star_rfind.
  destruct (rfind em (drop_str (String.length sm) s)); [|done].
  simpl. by rewrite drop_drop.
Qed.

Lemma sub_scan_skip r repl n s :
  n <= String.length s -> sub_scan r repl n s = sub_scan r repl 0 (drop_str n s).
Proof.
  revert s. induction n as [|n IH]; intros s Hn; [done|].
  destruct s as [|c s]; simpl in Hn; [lia|].
  simpl drop_str. rewrite <- IH by lia. done.
Qed.

Lemma sub_scan_match r repl s rest :
  rmatch r s Some = Some rest ->
  String.length rest < String.length s ->
  sub_scan r repl 0 s =
  repl +:+ sub_scan r repl 0 (drop_str (String.length s - String.length rest) s).
Proof.
  intros Hm Hlen. destruct s as [|c s]; [simpl in Hlen; lia|].
  cbn [sub_scan]. rewrite Hm.
  destruct (String.length (String c s) - String.length rest) as [|n] eqn:En; [lia|].
  f_equal. simpl drop_str. apply sub_scan_skip. simpl in En. lia.
Qed.

Lemma sub_scan_copy r repl c s :
  rmatch r (String c s) Some = None ->
  sub_scan r repl 0 (String c s) = String c (sub_scan r repl 0 s).
Proof. intros Hm. cbn [sub_scan]. by rewrite Hm. Qed.

(** Where no end marker follows, nothing matches and the text is copied. *)
Lemma scan_no_end repl s :
  rfind em (drop_str (String.length sm) s) = None ->
  sub_scan pat repl 0 s = s.
Proof.
  induction s as [|c s IH]; intros H.
  - cbn [sub_scan]. rewrite rmatch_pat, sm_nonempty. done.
  - rewrite sub_scan_copy.
    + f_equal. apply IH.
      replace (drop_str (String.length sm) s)
        with (drop_str 1 (drop_str (String.length sm) (String c s))).
      * by apply rfind_drop_None.
      * rewrite drop_drop. by rewrite Nat.add_1_r.
    + rewrite rmatch_pat, H. by destruct (String.prefix sm (String c s)).
Qed.

(** Up to the first start marker the text is copied. *)
Lemma scan_to_first repl s i :
  find sm s = Some i ->
  sub_scan pat repl 0 s = take_str i s +:+ sub_scan pat repl 0 (drop_str i s).
Proof.
  revert i. induction s as [|c s IH]; intros i.
  - rewrite (proj2 (find_None sm "")); [done|]. cbn [contains]. by rewrite sm_nonempty.
  - rewrite find_cons. destruct (String.prefix sm (String c s)) eqn:E.
    + by intros [= <-].
    + destruct (find sm s) as [i'|] eqn:Hf; [|done]. intros [= <-].
      rewrite sub_scan_copy by (by rewrite rmatch_pat, E).
      rewrite (IH _ eq_refl). done.
Qed.

(** At a start marker that an end marker follows, the span up to the last
    end marker is replaced and the rest is copied. *)
Lemma scan_at_start repl s m :
  String.prefix sm s = true ->
  rfind em (drop_str (String.length sm) s) = Some m ->
  sub_scan pat repl 0 s =
  repl +:+ drop_str (String.length sm + (m + String.length em)) s.
Proof.
  intros Hs Hm.
  pose proof (rfind_length _ _ _ Hm) as Hlen. rewrite length_drop in Hlen.
  assert (Hsm : 0 < String.length sm) by (destruct sm; [done|simpl; lia]).
  assert (Hem : 0 < String.length em) by (destruct em; [done|simpl; lia]).
  set (n := String.length sm + (m + String.length em)) in *.
  assert (Hmatch : rmatch pat s Some = Some (drop_str n s))
    by (by rewrite rmatch_pat, Hs, Hm).
  rewrite (sub_scan_match _ _ _ _ Hmatch) by (rewrite length_drop; lia).
  rewrite length_drop. replace (String.length s - (String.length s - n)) with n by lia.
  f_equal. apply scan_no_end.
  rewrite drop_drop.
  replace (n + String.length sm)
    with (String.length sm + (m + String.length em + String.length sm)) by lia.
  rewrite <- drop_drop, (rfind_drop _ _ _ _ em_nonempty Hm).
  case_decide; [lia|done].
Qed.

(** The whole substitution, by where the markers are. *)
Lemma re_sub_replaces repl s i j :
  find sm s = Some i ->
  rfind em s = Some j ->
  i + String.length sm <= j ->
  re_sub pat repl s =
  take_str i s +:+ repl +:+ drop_str (j + String.length em) s.
Proof.
  intros Hi Hj Hij. unfold re_sub. rewrite (scan_to_first _ _ _ Hi). f_equal.
  rewrite (scan_at_start repl (drop_str i s) (j - (i + String.length sm))).
  - f_equal. rewrite drop_drop. f_equal. lia.
  - by apply find_prefix.
  - rewrite drop_drop, (rfind_drop _ _ _ _ em_nonempty Hj). by case_decide.
Qed.

Lemma re_sub_unchanged repl s i :
  find sm s = Some i ->
  (forall j, rfind em s = Some j -> j < i + String.length sm) ->
  re_sub pat repl s = s.
Proof.
  intros Hi Hj. unfold re_sub. rewrite (scan_to_first _ _ _ Hi).
  rewrite scan_no_end; [apply take_drop|].
  rewrite drop_drop. destruct (rfind em s) as [j|] eqn:E.
  - rewrite (rfind_drop _ _ _ _ em_nonempty E). case_decide; [|done].
    specialize (Hj _ eq_refl). lia.
  - by apply rfind_drop_None.
Qed.
End scan.

(** * The rendered section is plain text *)

Lemma Ok_inj {A : Type} (a b : A) : Ok a = Ok b -> a = b.
Proof. by intros [= ->]. Qed.

Section plain.

Lemma has_char_app c s t : has_char c (s +:+ t) = has_char c s || has_char c t.
Proof.
  induction s as [|a s IH]; [done|].
  change (String a s +:+ t) with (String a (s +:+ t)).
  cbn [has_char]. by rewrite IH, orb_assoc.
Qed.

Lemma plain_app s t : plain (s +:+ t) = plain s && plain t.
Proof.
  unfold plain. rewrite !has_char_app.
  by destruct (has_char "<" s), (has_char "\" s), (has_char "<" t), (has_char "\" t).
Qed.

Lemma plain_str_repeat s n : plain s = true -> plain (str_repeat s n) = true.
Proof. intros Hs. induction n as [|n IH]; simpl; [done|]. by rewrite plain_app, Hs, IH. Qed.

Lemma plain_ljust w s : plain s = true -> plain (ljust w s) = true.
Proof. intros Hs. unfold ljust. rewrite plain_app, Hs. by apply plain_str_repeat. Qed.

Lemma plain_join sep l :
  plain sep = true -> Forall (fun s => plain s = true) l -> plain (join sep l) = true.
Proof.
  intros Hsep. induction 1 as [|s l Hs Hl IH]; [done|].
  destruct l as [|s' l]; [done|].
  change (join sep (s :: s' :: l)) with (s +:+ sep +:+ join sep (s' :: l)).
  by rewrite !plain_app, Hs, Hsep, IH.
Qed.

Lemma plain_uint d : plain (NilEmpty.string_of_uint d) = true.
Proof.
  induction d; [done|..];
    (change (plain (String ?a (NilEmpty.string_of_uint d)))
       with (plain (String a "" +:+ NilEmpty.string_of_uint d)) at 1 ||
     cbn [NilEmpty.string_of_uint]);
    match goal with
    | |- plain (String ?a ?s) = true =>
        change (String a s) with (String a "" +:+ s); by rewrite plain_app, IHd
    end.
Qed.

Lemma plain_str i : plain (str i) = true.
Proof.
  unfold str, NilZero.string_of_int, NilZero.string_of_uint.
  destruct (Z.to_int i) as [d|d].
  - destruct d; try apply plain_uint; done.
  - change (String "-" ?s) with ("-" +:+ s). rewrite plain_app.
    destruct d; try (rewrite plain_uint; done); done.
Qed.

Lemma for_each_Forall {A B : Type} (f : A -> result B) (P : B -> Prop) l ys :
  (forall x y, f x = Ok y -> P y) ->
  for_each f l = Ok ys -> Forall P ys.
Proof.
  intros Hf. revert ys. induction l as [|x l IH]; intros ys; cbn [for_each].
  - intros [= <-]. constructor.
  - destruct (f x) as [y|] eqn:Hy; [|done]. cbn [mbind result_bind].
    destruct (for_each f l) as [ys'|]; [|done]. cbn [mbind result_bind].
    intros [= <-]. constructor; eauto.
Qed.

Lemma plain_daily_bar daily_commits max_commits day bar :
  plain day = true ->
  daily_bar daily_commits max_commits day = Ok bar -> plain bar = true.
Proof.
  intros Hday. unfold daily_bar.
  destruct (bar_hours daily_commits max_commits day) as [h|]; [|done].
  destruct (bar_length daily_commits max_commits day) as [n|]; [|done].
  cbn [mbind result_bind]. intros <-%Ok_inj.
  rewrite !plain_app, plain_ljust, plain_str by done.
  unfold bar_of. by rewrite plain_str_repeat.
Qed.

Lemma plain_days : Forall (fun day => plain day = true) days.
Proof. repeat constructor. Qed.

Lemma for_each_Forall_in {A B : Type} (f : A -> result B)
    (Q : A -> Prop) (P : B -> Prop) l ys :
  Forall Q l ->
  (forall x y, Q x -> f x = Ok y -> P y) ->
  for_each f l = Ok ys -> Forall P ys.
Proof.
  intros HQ Hf. revert ys. induction HQ as [|x l Hx Hl IH]; intros ys; cbn [for_each].
  - intros <-%Ok_inj. constructor.
  - destruct (f x) as [y|] eqn:Hy; [|done]. cbn [mbind result_bind].
    destruct (for_each f l) as [ys'|]; [|done]. cbn [mbind result_bind].
    intros <-%Ok_inj. constructor; eauto.
Qed.

Lemma plain_create_daily_commit_bars daily_commits bars :
  create_daily_commit_bars daily_commits = Ok bars -> plain bars = true.
Proof.
  unfold create_daily_commit_bars.
  destruct (daily_max daily_commits) as [M|]; [|done]. cbn [mbind result_bind].
  destruct (for_each _ days) as [ls|] eqn:E; [|done]. cbn [mbind result_bind].
  intros <-%Ok_inj. apply plain_join; [done|].
  apply Forall_app. split; [|by repeat constructor].
  eapply for_each_Forall_in; [apply plain_days| |exact E].
  intros day bar Hday. by apply plain_daily_bar.
Qed.

Lemma py_index_elem {A : Type} (l : list A) i x : py_index l i = Ok x -> x ∈ l.
Proof.
  unfold py_index. destruct (_ && _); [|done].
  destruct (l !! _) eqn:E; [|done]. intros <-%Ok_inj.
  by eapply list_elem_of_lookup_2.
Qed.

Lemma plain_heatmap_cell hourly_commits max_commits day hour glyph :
  heatmap_cell hourly_commits max_commits day hour = Ok glyph -> plain glyph = true.
Proof.
  unfold heatmap_cell. destruct (intensity _ _ _ _) as [i|]; [|done].
  cbn [mbind result_bind]. intros Hg%py_index_elem.
  unfold intensity_chars in Hg.
  repeat (apply elem_of_cons in Hg as [->|Hg]; [done|]).
  by apply elem_of_nil in Hg.
Qed.

Lemma plain_heatmap_row hourly_commits max_commits day row :
  plain day = true ->
  heatmap_row hourly_commits max_commits day = Ok row -> plain row = true.
Proof.
  intros Hday. unfold heatmap_row.
  destruct (for_each _ hours) as [cells|] eqn:E; [|done]. cbn [mbind result_bind].
  intros <-%Ok_inj. apply plain_join; [done|]. constructor; [by apply plain_ljust|].
  eapply for_each_Forall; [|exact E]. intros hour g. apply plain_heatmap_cell.
Qed.

Lemma plain_create_heatmap hourly_commits heatmap :
  create_heatmap hourly_commits = Ok heatmap -> plain heatmap = true.
Proof.
  unfold create_heatmap.
  destruct (hourly_max hourly_commits) as [M|]; [|done]. cbn [mbind result_bind].
  destruct (for_each _ days) as [rows|] eqn:E; [|done]. cbn [mbind result_bind].
  intros <-%Ok_inj. apply plain_join; [done|]. constructor; [by vm_compute|].
  eapply for_each_Forall_in; [apply plain_days| |exact E].
  intros day row Hday. by apply plain_heatmap_row.
Qed.

(** The rendered section holds no [<] and no backslash. *)
Theorem create_stats_section_plain year stats stats_section :
  create_stats_section year stats = Ok stats_section -> plain stats_section = true.
Proof.
  unfold create_stats_section.
  destruct (create_daily_commit_bars _) as [bars|] eqn:Eb; [|done].
  destruct (create_heatmap _) as [heatmap|] eqn:Eh; [|done].
  cbn [mbind result_bind]. intros <-%Ok_inj.
  apply plain_join; [done|].
  repeat (constructor;
          [first [ done
                 | by eapply plain_create_daily_commit_bars
                 | by eapply plain_create_heatmap
                 | by rewrite !plain_app, ?plain_ljust, ?plain_str
                      by (apply plain_str || done) ] |]).
  constructor.
Qed.
End plain.

Section patcher.
Local Open Scope nat_scope.

(** ** The two markers *)

Lemma start_marker_nonempty : String.prefix start_marker "" = false.
Proof. done. Qed.

Lemma end_marker_nonempty : String.prefix end_marker "" = false.
Proof. done. Qed.

Lemma start_marker_head :
  exists tail, start_marker = String "<" tail /\ has_char "<" tail = false.
Proof. eexists. split; reflexivity. Qed.

Lemma end_marker_head :
  exists tail, end_marker = String "<" tail /\ has_char "<" tail = false.
Proof. eexists. split; reflexivity. Qed.

Lemma start_marker_one_line : has_char "010" start_marker = false.
Proof. done. Qed.

(** ** More on [find] and [rfind] *)

Lemma find_app_prefix sub y : find sub (sub +:+ y) = Some 0.
Proof.
  destruct (sub +:+ y) eqn:E.
  - by destruct sub.
  - rewrite find_cons, <- E, prefix_app. done.
Qed.

Lemma rfind_marker_head a sub y :
  has_char a sub = false ->
  rfind (String a sub) y = None ->
  rfind (String a sub) (String a sub +:+ y) = Some 0.
Proof.
  intros Ha Hy.
  pose proof (prefix_app (String a sub) y) as Hp.
  change (String a sub +:+ y) with (String a (sub +:+ y)) in *.
  by rewrite rfind_cons, rfind_skip, Hy, Hp.
Qed.


Lemma rfind_written em pre sm mid post :
  (exists tail, em = String "<" tail /\ has_char "<" tail = false) ->
  rfind em post = None ->
  rfind em (pre +:+ sm +:+ mid +:+ em +:+ post) =
    Some (String.length pre + String.length sm + String.length mid).
Proof.
  intros (tail & -> & Htail) Hpost.
  replace (pre +:+ sm +:+ mid +:+ String "<" tail +:+ post)
    with ((pre +:+ sm +:+ mid) +:+ String "<" tail +:+ post) by (by rewrite !app_assoc).
  rewrite (rfind_app_Some _ _ _ 0) by (by apply rfind_marker_head).
  rewrite !length_app. f_equal. lia.
Qed.
End patcher.

Section update_readme.
Local Open Scope nat_scope.

Lemma contains_find sub s i : find sub s = Some i -> contains sub s = true.
Proof.
  intros H. destruct (contains sub s) eqn:E; [done|].
  apply find_None in E. congruence.
Qed.

Lemma update_readme_present year stats content stats_section i :
  create_stats_section year stats = Ok stats_section ->
  find start_marker content = Some i ->
  update_readme year stats content =
    Ok (re_sub pattern (start_marker +:+ nl +:+ stats_section +:+ nl +:+ end_marker) content).
Proof.
  intros Hs Hi. unfold update_readme. rewrite Hs. cbn [mbind result_bind].
  by rewrite (contains_find _ _ _ Hi).
Qed.

(** The template that [update_readme] hands to [re.sub] holds no backslash:
    it stands for itself, as [re_sub] takes it. *)
Lemma update_readme_template_literal year stats stats_section :
  create_stats_section year stats = Ok stats_section ->
  has_char "\" (start_marker +:+ nl +:+ stats_section +:+ nl +:+ end_marker) = false.
Proof.
  intros Hs%create_stats_section_plain. unfold plain in Hs.
  rewrite !has_char_app.
  by destruct (has_char "<" stats_section), (has_char "\" stats_section).
Qed.

(** C1, amended.  When the start marker first occurs at [i] and the end
    marker last occurs at [j], at or after the end of that start marker,
    [update_readme] keeps the content before [i], writes start marker,
    newline, rendered section, newline, end marker in place of the span from
    [i] to the end of the last end marker, and keeps the content after it. *)
Theorem update_readme_replaces_span year stats content stats_section i j :
  create_stats_section year stats = Ok stats_section ->
  find start_marker content = Some i ->
  rfind end_marker content = Some j ->
  i + String.length start_marker <= j ->
  update_readme year stats content =
    Ok (take_str i content +:+
        start_marker +:+ nl +:+ stats_section +:+ nl +:+ end_marker +:+
        drop_str (j + String.length end_marker) content).
Proof.
  intros Hs Hi Hj Hij. rewrite (update_readme_present _ _ _ _ _ Hs Hi). f_equal.
  unfold pattern.
  rewrite (re_sub_replaces _ _ end_marker_nonempty start_marker_nonempty _ _ _ _ Hi Hj Hij).
  by rewrite !app_assoc.
Qed.

Lemma update_readme_replaces_span_witness :
  exists stats_section,
    create_stats_section 2025 sample_stats = Ok stats_section /\
    update_readme 2025 sample_stats readme_two_ends =
      Ok (take_str 5 readme_two_ends +:+
          start_marker +:+ nl +:+ stats_section +:+ nl +:+ end_marker +:+
          drop_str (79 + String.length end_marker) readme_two_ends).
Proof.
  destruct (create_stats_section 2025 sample_stats) as [sec|] eqn:E;
    [|vm_compute in E; discriminate].
  exists sec. split; [reflexivity|].
  apply (update_readme_replaces_span 2025 sample_stats readme_two_ends sec 5 79 E).
  - vm_compute; reflexivity.
  - vm_compute; reflexivity.
  - vm_compute; lia.
Defined.

(** C1 as stated fails: in [readme_two_ends] the first end marker is at 41,
    but the span replaced runs to the last end marker, so the text between
    the two end markers is gone. *)
Lemma update_readme_first_end_counterexample :
  exists stats_section,
    create_stats_section 2025 sample_stats = Ok stats_section /\
    find start_marker readme_two_ends = Some 5 /\
    find end_marker readme_two_ends = Some 41 /\
    update_readme 2025 sample_stats readme_two_ends =
      Ok ("# Me" +:+ nl +:+
          start_marker +:+ nl +:+ stats_section +:+ nl +:+ end_marker +:+ " tail") /\
    update_readme 2025 sample_stats readme_two_ends <>
      Ok (take_str 5 readme_two_ends +:+
          start_marker +:+ nl +:+ stats_section +:+ nl +:+ end_marker +:+
          drop_str (41 + String.length end_marker) readme_two_ends).
Proof.
  eexists. split; [vm_compute; reflexivity|].
  do 2 (split; [vm_compute; reflexivity|]).
  match goal with |- ?A /\ _ => assert (Hr : A) by (vm_compute; reflexivity) end.
  split; [exact Hr|]. rewrite Hr. clear Hr.
  intros H%Ok_inj. apply (f_equal String.length) in H.
  vm_compute in H. discriminate.
Qed.

(** C7.  When the start marker does not occur in the content,
    [update_readme] writes the content unchanged, followed by newline, start
    marker, newline, rendered section, newline, end marker, newline; the
    result holds exactly one start marker (its first and its last occurrence
    coincide) and the appended text exactly one end marker. *)
Theorem update_readme_appends year stats content stats_section :
  create_stats_section year stats = Ok stats_section ->
  contains start_marker content = false ->
  let appended :=
    nl +:+ start_marker +:+ nl +:+ stats_section +:+ nl +:+ end_marker +:+ nl in
  update_readme year stats content = Ok (content +:+ appended) /\
  find start_marker (content +:+ appended) = Some (S (String.length content)) /\
  rfind start_marker (content +:+ appended) = Some (S (String.length content)) /\
  find end_marker appended =
    Some (1 + String.length start_marker + 1 + String.length stats_section + 1) /\
  rfind end_marker appended =
    Some (1 + String.length start_marker + 1 + String.length stats_section + 1).
Proof.
  intros Hs Hc appended.
  pose proof (create_stats_section_plain _ _ _ Hs) as Hplain.
  assert (Hlt : has_char "<" (nl +:+ stats_section +:+ nl) = false).
  { rewrite !has_char_app. unfold plain in Hplain.
    destruct (has_char "<" stats_section); [done|]. done. }
  split; [|split; [|split; [|split]]].
  - unfold update_readme. rewrite Hs. cbn [mbind result_bind]. by rewrite Hc.
  - unfold appended. change (nl +:+ ?y) with (String "010"%char y).
    rewrite find_after_char by done.
    rewrite find_app_prefix. cbn [fmap option_fmap option_map]. f_equal. lia.
  - unfold appended.
    replace (content +:+ nl +:+ start_marker +:+ nl +:+ stats_section +:+ nl +:+ end_marker +:+ nl)
      with ((content +:+ nl) +:+ start_marker +:+
            (nl +:+ stats_section +:+ nl) +:+ end_marker +:+ nl)
      by (by rewrite !app_assoc).
    assert (Hse : rfind start_marker (end_marker +:+ nl) = None) by done.
    destruct start_marker_head as (tail & Ht & Htail). rewrite Ht in Hse |- *.
    rewrite (rfind_app_Some _ _ _ 0).
    + rewrite length_app. f_equal. simpl. lia.
    + apply rfind_marker_head; [done|].
      by rewrite rfind_skip, Hse.
  - unfold appended.
    destruct end_marker_head as (tail & Ht & Htail).
    change (nl +:+ start_marker +:+ ?y) with (String "010"%char (String "<" ("!--START_SECTION:github_stats-->" +:+ y))).
    rewrite find_cons. rewrite Ht at 1. rewrite prefix_cons. cbn [andb bool_decide decide_rel].
    rewrite bool_decide_false by done. cbn [andb fmap option_fmap option_map].
    rewrite find_cons.
    assert (forall y, String.prefix end_marker
              (String "<" ("!--START_SECTION:github_stats-->" +:+ y)) = false) as -> by done.
    rewrite Ht at 1. rewrite (find_skip "<" tail "!--START_SECTION:github_stats-->") by done.
    replace (nl +:+ stats_section +:+ nl +:+ end_marker +:+ nl)
      with ((nl +:+ stats_section +:+ nl) +:+ end_marker +:+ nl) by (by rewrite !app_assoc).
    rewrite (find_skip "<" tail _ _ Hlt). rewrite <- Ht, find_app_prefix.
    cbn [fmap option_fmap option_map]. f_equal.
    rewrite !length_app. simpl. lia.
  - unfold appended.
    replace (nl +:+ start_marker +:+ nl +:+ stats_section +:+ nl +:+ end_marker +:+ nl)
      with ((nl +:+ start_marker +:+ nl +:+ stats_section +:+ nl) +:+ end_marker +:+ nl)
      by (by rewrite !app_assoc).
    rewrite (rfind_app_Some _ _ _ 0) by done.
    rewrite !length_app. f_equal. simpl. lia.
Qed.

Lemma update_readme_appends_witness :
  exists stats_section,
    create_stats_section 2025 sample_stats = Ok stats_section /\
    update_readme 2025 sample_stats "# Me" =
      Ok ("# Me" +:+ nl +:+ start_marker +:+ nl +:+ stats_section +:+ nl +:+ end_marker +:+ nl).
Proof.
  destruct (create_stats_section 2025 sample_stats) as [sec|] eqn:E;
    [|vm_compute in E; discriminate].
  exists sec. split; [reflexivity|].
  apply (update_readme_appends 2025 sample_stats "# Me" sec E).
  vm_compute. reflexivity.
Defined.

(** ** Running the patcher again *)

Lemma update_readme_unchanged year stats content stats_section i :
  create_stats_section year stats = Ok stats_section ->
  find start_marker content = Some i ->
  (forall j, rfind end_marker content = Some j -> j < i + String.length start_marker) ->
  update_readme year stats content = Ok content.
Proof.
  intros Hs Hi Hj. rewrite (update_readme_present _ _ _ _ _ Hs Hi). f_equal.
  unfold pattern.
  by apply (re_sub_unchanged _ _ end_marker_nonempty start_marker_nonempty _ _ i).
Qed.



(** C2.  On [readme_no_end], which holds a start marker and no end marker,
    [update_readme] writes the content back as it was: the result holds
    neither the rendered section nor an end marker, where the claim has one
    copy of the section between the markers. *)
Lemma update_readme_no_end_marker :
  exists stats_section,
    create_stats_section 2025 sample_stats = Ok stats_section /\
    contains start_marker readme_no_end = true /\
    contains end_marker readme_no_end = false /\
    update_readme 2025 sample_stats readme_no_end = Ok readme_no_end /\
    contains stats_section readme_no_end = false.
Proof.
  eexists. split; [vm_compute; reflexivity|].
  do 3 (split; [vm_compute; reflexivity|]).
  vm_compute. reflexivity.
Qed.
End update_readme.

(** * The collector *)

Section collector.

Lemma count_commit_run c t : count_commit c t = (Ok tt, tally_step t c).
Proof. by destruct c. Qed.

Lemma bind_run {S A B : Type} (m : prog S A) (f : A -> prog S B) s a s' :
  m s = (Ok a, s') -> bind m f s = f a s'.
Proof. intros H. unfold bind. by rewrite H. Qed.

Lemma iterate_count it t :
  exists r, iterate count_commit it t = (r, foldl tally_step t (delivered it)).
Proof.
  revert t. induction it as [c rest IH| |e]; intros t; cbn [iterate delivered foldl].
  - rewrite (bind_run _ _ _ _ _ (count_commit_run c t)). apply IH.
  - by exists (Ok tt).
  - by exists (Raise e).
Qed.

Lemma try_iterate_count it t :
  try_except (iterate count_commit it) (pure tt) t =
  (Ok tt, foldl tally_step t (delivered it)).
Proof.
  unfold try_except. destruct (iterate_count it t) as [r ->].
  by destruct r as [[]|e].
Qed.

Lemma for_in_repos repos t :
  for_in (fun repo => try_except (iterate count_commit (recent_commits repo)) (pure tt))
         repos t =
  (Ok tt, foldl tally_step t (delivered_commits repos)).
Proof.
  revert t. induction repos as [|repo repos IH]; intros t; [done|].
  cbn [for_in]. rewrite (bind_run _ _ _ _ _ (try_iterate_count _ t)), IH.
  unfold delivered_commits. cbn [mbind list_bind]. by rewrite foldl_app.
Qed.

Lemma tally_step_cell t c day hour :
  cell_commits (t_hourly (tally_step t c)) day hour =
  cell_commits (t_hourly t) day hour + (if decide (c = (day, hour)) then 1 else 0).
Proof.
  destruct c as [d h]. unfold tally_step, cell_commits. cbn.
  destruct (decide (d = day)) as [->|Hd].
  - rewrite lookup_insert_eq. cbn.
    destruct (decide (h = hour)) as [->|Hh].
    + rewrite lookup_insert_eq, decide_True by done. done.
    + rewrite lookup_insert_ne, decide_False by congruence. cbn. lia.
  - rewrite lookup_insert_ne, decide_False by congruence. lia.
Qed.

Lemma tally_step_day t c day :
  day_commits (t_daily (tally_step t c)) day =
  day_commits (t_daily t) day + (if decide (c.1 = day) then 1 else 0).
Proof.
  destruct c as [d h]. unfold tally_step, day_commits. cbn.
  destruct (decide (d = day)) as [->|Hd].
  - by rewrite lookup_insert_eq.
  - rewrite lookup_insert_ne by congruence. lia.
Qed.

Lemma tally_cells l t day hour :
  cell_commits (t_hourly (foldl tally_step t l)) day hour =
  cell_commits (t_hourly t) day hour + Z.of_nat (count_cell day hour l).
Proof.
  revert t. induction l as [|c l IH]; intros t; cbn [foldl].
  - unfold count_cell. cbn. lia.
  - rewrite IH, tally_step_cell. unfold count_cell. rewrite filter_cons.
    case_decide; cbn [length]; lia.
Qed.

Lemma tally_days l t day :
  day_commits (t_daily (foldl tally_step t l)) day =
  day_commits (t_daily t) day + Z.of_nat (count_day day l).
Proof.
  revert t. induction l as [|c l IH]; intros t; cbn [foldl].
  - unfold count_day. cbn. lia.
  - rewrite IH, tally_step_day. unfold count_day. rewrite filter_cons.
    case_decide; cbn [length]; lia.
Qed.

Lemma get_commit_time_data_counts user :
  exists hourly daily,
    get_commit_time_data user = Ok (hourly, daily) /\
    (forall day hour,
        cell_commits hourly day hour =
        Z.of_nat (count_cell day hour (delivered_commits (get_repos user)))) /\
    (forall day,
        day_commits daily day =
        Z.of_nat (count_day day (delivered_commits (get_repos user)))).
Proof.
  unfold get_commit_time_data. rewrite for_in_repos. cbn [mbind result_bind].
  eexists _, _. split; [reflexivity|]. split.
  - intros day hour. rewrite tally_cells. unfold cell_commits. cbn.
    rewrite lookup_empty. cbn. by rewrite lookup_empty.
  - intros day. rewrite tally_days. unfold day_commits. cbn.
    by rewrite lookup_empty.
Qed.

Lemma year_loop repos commits :
  for_in (fun repo =>
            try_except
              (fun commits =>
                 match year_totalCount repo with
                 | Ok n => (Ok tt, commits + n)
                 | Raise e => (Raise e, commits)
                 end)
              (pure tt))
         repos commits =
  (Ok tt, commits + year_total repos).
Proof.
  revert commits. induction repos as [|repo repos IH]; intros commits; cbn [for_in year_total foldr].
  - unfold pure. f_equal. lia.
  - unfold bind at 1. unfold try_except at 1.
    destruct (year_totalCount repo) as [n|e]; cbn; rewrite IH; f_equal; unfold year_total; lia.
Qed.

Lemma count_year_commits_total repos : count_year_commits repos = Ok (year_total repos).
Proof. unfold count_year_commits. by rewrite year_loop. Qed.

(** A repository whose requests fail adds nothing: the stats are those of the
    other repositories. *)
Lemma failing_repository_is_skipped repos1 repo repos2 e1 e2 :
  recent_commits repo = Fails e1 ->
  year_totalCount repo = Raise e2 ->
  delivered_commits (repos1 ++ repo :: repos2) = delivered_commits (repos1 ++ repos2) /\
  year_total (repos1 ++ repo :: repos2) = year_total (repos1 ++ repos2).
Proof.
  intros Hc Hy. split.
  - unfold delivered_commits. rewrite !bind_app, bind_cons, Hc. done.
  - unfold year_total. rewrite !foldr_app. cbn [foldr]. by rewrite Hy.
Qed.

(** C8.  For every list of repositories, whichever of their commit requests
    fail, the collector returns its stats; the yearly total is the sum of the
    counts that arrived, and the two histograms count exactly the commits
    that were handed out: all those of a repository that does not fail, and
    none of a repository after its failure. *)
Theorem collector_skips_failing_repositories year_ago user :
  exists stats,
    get_github_stats year_ago user = Ok stats /\
    commits stats = year_total (get_repos user) /\
    (forall day hour,
        cell_commits (hourly_commits stats) day hour =
        Z.of_nat (count_cell day hour (delivered_commits (get_repos user)))) /\
    (forall day,
        day_commits (daily_commits stats) day =
        Z.of_nat (count_day day (delivered_commits (get_repos user)))).
Proof.
  destruct (get_commit_time_data_counts user) as (hourly & daily & Hd & Hh & Hday).
  unfold get_github_stats. rewrite count_year_commits_total, Hd.
  cbn [mbind result_bind]. eexists. split; [reflexivity|]. by cbn.
Qed.
End collector.

(* ===================================================================== *)
(** * Further properties of the script                                   *)
(* ===================================================================== *)

(** * Scaling is exact on counts below [2^48] *)

Lemma round_half_even_far n d : 0 < d -> 2 * n - d <= 2 * d * round_half_even n d.
Proof.
  intros Hd. unfold round_half_even.
  pose proof (Z.div_mod n d ltac:(lia)) as E.
  pose proof (Z.mod_pos_bound n d Hd) as B.
  repeat case_match; rewrite ?Z.ltb_lt, ?Z.ltb_ge in *; nia.
Qed.

Lemma div_mod_unique n d q s : 0 <= s < d -> n = q * d + s -> n / d = q /\ n mod d = s.
Proof.
  intros Hs ->. split.
  - symmetry. apply (Z.div_unique _ _ q s); lia.
  - symmetry. apply (Z.mod_unique _ _ q s); lia.
Qed.

Lemma round_half_even_down n d q :
  0 < d -> q * d <= n -> 2 * n < (2 * q + 1) * d -> round_half_even n d = q.
Proof.
  intros Hd Hlo Hhi.
  destruct (div_mod_unique n d q (n - q * d)) as [Hq Hs]; [nia|lia|].
  unfold round_half_even. rewrite Hq, Hs.
  destruct (Z.ltb_spec (2 * (n - q * d)) d); [done|nia].
Qed.

Lemma round_half_even_up n d q :
  0 < d -> (2 * q + 1) * d < 2 * n -> n <= (q + 1) * d -> round_half_even n d = q + 1.
Proof.
  intros Hd Hlo Hhi.
  destruct (Z.eq_dec n ((q + 1) * d)) as [->|Hne].
  - destruct (div_mod_unique ((q + 1) * d) d (q + 1) 0) as [Hq Hs]; [lia|lia|].
    unfold round_half_even. rewrite Hq, Hs.
    destruct (Z.ltb_spec (2 * 0) d); [done|lia].
  - destruct (div_mod_unique n d q (n - q * d)) as [Hq Hs]; [nia|lia|].
    unfold round_half_even. rewrite Hq, Hs.
    destruct (Z.ltb_spec (2 * (n - q * d)) d); [nia|].
    destruct (Z.ltb_spec d (2 * (n - q * d))); [done|nia].
Qed.

Lemma round_half_even_tie n d q :
  0 < d -> 2 * n = (2 * q + 1) * d ->
  round_half_even n d = if Z.even q then q else q + 1.
Proof.
  intros Hd Ht.
  destruct (div_mod_unique n d q (n - q * d)) as [Hq Hs]; [nia|lia|].
  unfold round_half_even. rewrite Hq, Hs.
  destruct (Z.ltb_spec (2 * (n - q * d)) d); [nia|].
  destruct (Z.ltb_spec d (2 * (n - q * d))); [nia|done].
Qed.

Lemma round_half_even_exact q d : 0 < d -> round_half_even (q * d) d = q.
Proof. intros Hd. apply round_half_even_down; lia. Qed.

Lemma round_half_even_mono n1 n2 d :
  0 < d -> n1 <= n2 -> round_half_even n1 d <= round_half_even n2 d.
Proof.
  intros Hd Hn.
  pose proof (Z.div_le_mono n1 n2 d Hd Hn) as Hq.
  pose proof (Z.div_mod n1 d ltac:(lia)) as E1.
  pose proof (Z.div_mod n2 d ltac:(lia)) as E2.
  pose proof (Z.mod_pos_bound n1 d Hd) as B1.
  pose proof (Z.mod_pos_bound n2 d Hd) as B2.
  destruct (Z.eq_dec (n1 / d) (n2 / d)) as [Heq|Hne].
  - unfold round_half_even. rewrite Heq in *.
    repeat case_match; rewrite ?Z.ltb_lt, ?Z.ltb_ge in *; lia.
  - assert (round_half_even n1 d <= n1 / d + 1)
      by (unfold round_half_even; repeat case_match; lia).
    assert (n2 / d <= round_half_even n2 d)
      by (unfold round_half_even; repeat case_match; lia).
    lia.
Qed.

(** The exponent of a quotient below 32, and the power of two that scales
    its significand. *)
Lemma true_div_small a b :
  0 < a -> 0 < b -> a < 32 * b ->
  exists P, 2 ^ 48 <= P /\ Z.even P = true /\
    true_div a b = Ok (Float (round_half_even (a * P) b) (- Z.log2 P)) /\
    2 ^ (Z.log2 P) = P /\ 0 < Z.log2 P.
Proof.
  intros Ha Hb Hab.
  assert (Hk : ilog2_ratio a b <= 5 - 1)
    by (apply ilog2_ratio_lt; [..|change (2 ^ 5) with 32]; lia).
  set (e := Z.max (ilog2_ratio a b - 52) (-1074)).
  assert (He : e <= -48) by lia.
  exists (2 ^ (- e)).
  assert (Hlog : Z.log2 (2 ^ (- e)) = - e) by (apply Z.log2_pow2; lia).
  split; [apply Z.pow_le_mono_r; lia|]. split.
  - replace (- e) with (Z.succ (- e - 1)) by lia.
    rewrite Z.pow_succ_r by lia. by rewrite Z.even_mul.
  - rewrite Hlog, Z.opp_involutive. split; [apply true_div_pos; lia|].
    split; [done|lia].
Qed.

Lemma py_int_true_div a b :
  0 <= a -> 0 < b < 2 ^ 48 -> a < 32 * b ->
  exists x, true_div a b = Ok x /\ py_int x = a / b.
Proof.
  intros Ha Hb Hab.
  destruct (Z.eq_dec a 0) as [->|Hne].
  { exists (Float 0 0). unfold true_div. destruct (Z.eqb_spec b 0); [lia|]. done. }
  destruct (true_div_small a b) as (P & HP & _ & Hdiv & Hpow & Hlog); [lia..|].
  eexists. split; [exact Hdiv|].
  unfold py_int. cbn [mant expo]. destruct (Z.leb_spec 0 (- Z.log2 P)); [lia|].
  rewrite Z.opp_involutive, Hpow.
  set (m := round_half_even (a * P) b).
  pose proof (Z.div_mod a b ltac:(lia)) as E.
  pose proof (Z.mod_pos_bound a b ltac:(lia)) as B.
  set (q := a / b) in *.
  assert (Hq : 0 <= q) by (apply Z.div_pos; lia).
  assert (Hlo : q * P <= m) by (apply round_half_even_ge; nia).
  assert (Hnear : 2 * b * m <= 2 * (a * P) + b) by (apply round_half_even_near; lia).
  assert (Hhi : m < (q + 1) * P) by nia.
  rewrite Z.quot_div_nonneg by nia.
  symmetry. apply (Z.div_unique _ _ q (m - q * P)); nia.
Qed.

Lemma py_round_true_div a b :
  0 <= a -> 0 < b < 2 ^ 48 -> a < 32 * b ->
  exists x, true_div a b = Ok x /\ py_round x = round_half_even a b.
Proof.
  intros Ha Hb Hab.
  destruct (Z.eq_dec a 0) as [->|Hne].
  { exists (Float 0 0). unfold true_div. destruct (Z.eqb_spec b 0); [lia|].
    split; [done|]. symmetry. apply (round_half_even_exact 0); lia. }
  destruct (true_div_small a b) as (P & HP & Heven & Hdiv & Hpow & Hlog); [lia..|].
  eexists. split; [exact Hdiv|].
  unfold py_round. cbn [mant expo]. destruct (Z.leb_spec 0 (- Z.log2 P)); [lia|].
  rewrite Z.opp_involutive, Hpow.
  set (m := round_half_even (a * P) b).
  pose proof (Z.div_mod a b ltac:(lia)) as E.
  pose proof (Z.mod_pos_bound a b ltac:(lia)) as B.
  assert (Hq : 0 <= a / b) by (apply Z.div_pos; lia).
  assert (Hlo : a / b * P <= m) by (apply round_half_even_ge; nia).
  assert (Hup : m <= (a / b + 1) * P) by (apply round_half_even_le; nia).
  assert (Hnear : 2 * b * m <= 2 * (a * P) + b) by (apply round_half_even_near; lia).
  assert (Hfar : 2 * (a * P) - b <= 2 * b * m) by (apply round_half_even_far; lia).
  unfold round_half_even at 2.
  set (q := a / b) in *. set (s := a mod b) in *.
  destruct (Z.ltb_spec (2 * s) b).
  - apply round_half_even_down; nia.
  - destruct (Z.ltb_spec b (2 * s)).
    + apply round_half_even_up; nia.
    + apply Z.even_spec in Heven as [P' HP'].
      assert (Hm : m = q * P + P').
      { unfold m. replace (a * P) with ((q * P + P') * b) by nia.
        apply round_half_even_exact. lia. }
      apply round_half_even_tie; nia.
Qed.

(** * More on the two renderers *)

Lemma true_div_multiple K b :
  0 < b -> 0 <= K < 32 ->
  exists x, true_div (K * b) b = Ok x /\ py_int x = K /\ py_round x = K.
Proof.
  intros Hb HK.
  destruct (Z.eq_dec K 0) as [->|Hne].
  { exists (Float 0 0). unfold true_div. destruct (Z.eqb_spec b 0); [lia|]. done. }
  destruct (true_div_small (K * b) b) as (P & HP & _ & Hdiv & Hpow & Hlog); [nia|lia|nia|].
  eexists. split; [exact Hdiv|].
  replace (K * b * P) with (K * P * b) by lia.
  rewrite round_half_even_exact by lia.
  unfold py_int, py_round. cbn [mant expo].
  destruct (Z.leb_spec 0 (- Z.log2 P)); [lia|].
  rewrite Z.opp_involutive, Hpow. split.
  - rewrite Z.quot_div_nonneg by nia. apply Z.div_mul. lia.
  - apply round_half_even_exact. lia.
Qed.

(** X11.  The busiest day.  A day whose count is the maximum, when that is
    positive, gets the full bar of 20 characters and the label [24hrs],
    whatever the size of the counts. *)
Theorem busiest_day_full_bar (daily_commits : gmap string Z) max_commits day :
  daily_max daily_commits = Ok max_commits ->
  0 < max_commits ->
  day_commits daily_commits day = max_commits ->
  bar_length daily_commits max_commits day = Ok 20 /\
  bar_hours daily_commits max_commits day = Ok 24 /\
  daily_bar daily_commits max_commits day =
    Ok (ljust 8 day +:+ " ╠" +:+ str_repeat "═" 20 +:+ "╣ " +:+ "24" +:+ "hrs").
Proof.
  intros _ Hpos Hday.
  assert (Hs : forall K, 0 <= K < 32 ->
            scale_round (day_commits daily_commits day) K max_commits = Ok K).
  { intros K HK. unfold scale_round. rewrite Hday.
    destruct (Z.ltb_spec 0 max_commits); [|lia].
    destruct (true_div_multiple K max_commits) as (x & Hx & _ & Hr); [lia..|].
    rewrite (Z.mul_comm max_commits K), Hx. cbn [mbind result_bind]. by rewrite Hr. }
  assert (Hl : bar_length daily_commits max_commits day = Ok 20) by (apply Hs; lia).
  assert (Hh : bar_hours daily_commits max_commits day = Ok 24) by (apply Hs; lia).
  split; [done|]. split; [done|].
  unfold daily_bar. rewrite Hl, Hh. reflexivity.
Qed.

Lemma busiest_day_full_bar_witness :
  bar_length {[ "Wed" := 7; "Sat" := 3 ]} 7 "Wed" = Ok 20.
Proof.
  apply (busiest_day_full_bar {[ "Wed" := 7; "Sat" := 3 ]} 7 "Wed").
  - vm_compute. reflexivity.
  - lia.
  - vm_compute. reflexivity.
Defined.

(** X12.  The busiest cell.  A cell whose count is the maximum, when that is
    positive, gets intensity 6 and the full glyph, whatever the size of the
    counts. *)
Theorem busiest_cell_full_glyph (hourly_commits : gmap string (gmap Z Z))
    max_commits day hour :
  hourly_max hourly_commits = Ok max_commits ->
  0 < max_commits ->
  cell_commits hourly_commits day hour = max_commits ->
  intensity hourly_commits max_commits day hour = Ok 6 /\
  heatmap_cell hourly_commits max_commits day hour = Ok "██".
Proof.
  intros _ Hpos Hcell.
  assert (Hi : intensity hourly_commits max_commits day hour = Ok 6).
  { unfold intensity. rewrite Hcell.
    destruct (Z.ltb_spec 0 max_commits); [|lia].
    change (Z.of_nat (length intensity_chars) - 1) with 6.
    destruct (true_div_multiple 6 max_commits) as (x & Hx & Hr & _); [lia..|].
    rewrite (Z.mul_comm max_commits 6), Hx. cbn [mbind result_bind]. by rewrite Hr. }
  split; [done|]. unfold heatmap_cell. by rewrite Hi.
Qed.

Lemma busiest_cell_full_glyph_witness :
  heatmap_cell {[ "Fri" := {[ 22 := 4; 8 := 9 ]} ]} 9 "Fri" 8 = Ok "██".
Proof.
  apply (busiest_cell_full_glyph {[ "Fri" := {[ 22 := 4; 8 := 9 ]} ]} 9 "Fri" 8).
  - vm_compute. reflexivity.
  - lia.
  - vm_compute. reflexivity.
Defined.

(** X13.  Exact bars.  For counts that are not negative and a maximum below
    [2^48], the float arithmetic loses nothing: the bar length is the exact
    quotient [20 * c / max] rounded to the nearest integer, ties to even, and
    the hours label the same for 24. *)
Theorem bar_length_exact (daily_commits : gmap string Z) max_commits day :
  daily_nonneg daily_commits ->
  daily_max daily_commits = Ok max_commits ->
  0 < max_commits < 2 ^ 48 ->
  bar_length daily_commits max_commits day =
    Ok (round_half_even (day_commits daily_commits day * 20) max_commits) /\
  bar_hours daily_commits max_commits day =
    Ok (round_half_even (day_commits daily_commits day * 24) max_commits).
Proof.
  intros Hnn HM [Hpos Hlt].
  destruct (daily_max_spec _ _ Hnn HM) as [_ Hdays]. specialize (Hdays day).
  assert (Hs : forall K, 0 <= K < 32 ->
            scale_round (day_commits daily_commits day) K max_commits =
            Ok (round_half_even (day_commits daily_commits day * K) max_commits)).
  { intros K HK. unfold scale_round. destruct (Z.ltb_spec 0 max_commits); [|lia].
    destruct (py_round_true_div (day_commits daily_commits day * K) max_commits)
      as (x & -> & Hr); [nia|lia|nia|].
    cbn [mbind result_bind]. by rewrite Hr. }
  split; apply Hs; lia.
Qed.

Lemma bar_length_exact_witness :
  bar_length {[ "Mon" := 8; "Thu" := 3 ]} 8 "Thu" =
    Ok (round_half_even (day_commits {[ "Mon" := 8; "Thu" := 3 ]} "Thu" * 20) 8).
Proof.
  apply (bar_length_exact {[ "Mon" := 8; "Thu" := 3 ]} 8 "Thu").
  - unfold daily_nonneg. apply (bool_decide_unpack _). vm_compute. reflexivity.
  - vm_compute. reflexivity.
  - split; [lia|]. vm_compute. reflexivity.
Defined.

(** X14.  Exact intensities.  For counts that are not negative and a maximum
    below [2^48], the intensity of a cell is the integer quotient
    [6 * c / max], rounded down. *)
Theorem intensity_exact (hourly_commits : gmap string (gmap Z Z)) max_commits day hour :
  hourly_nonneg hourly_commits ->
  hourly_max hourly_commits = Ok max_commits ->
  0 < max_commits < 2 ^ 48 ->
  intensity hourly_commits max_commits day hour =
    Ok (cell_commits hourly_commits day hour * 6 / max_commits).
Proof.
  intros Hnn HM [Hpos Hlt].
  destruct (hourly_max_spec _ _ Hnn HM) as [_ Hcells]. specialize (Hcells day hour).
  unfold intensity. destruct (Z.ltb_spec 0 max_commits); [|lia].
  change (Z.of_nat (length intensity_chars) - 1) with 6.
  destruct (py_int_true_div (cell_commits hourly_commits day hour * 6) max_commits)
    as (x & -> & Hx); [lia..|].
  cbn [mbind result_bind]. by rewrite Hx.
Qed.

Lemma intensity_exact_witness :
  intensity {[ "Mon" := {[ 9 := 13; 14 := 5 ]} ]} 13 "Mon" 14 =
    Ok (cell_commits {[ "Mon" := {[ 9 := 13; 14 := 5 ]} ]} "Mon" 14 * 6 / 13).
Proof.
  apply (intensity_exact {[ "Mon" := {[ 9 := 13; 14 := 5 ]} ]} 13 "Mon" 14).
  - unfold hourly_nonneg. apply (bool_decide_unpack _). vm_compute. reflexivity.
  - vm_compute. reflexivity.
  - split; [lia|]. vm_compute. reflexivity.
Defined.

(** X17.  No commits on a day.  A day that the histogram lacks, or whose
    count is zero, gets the empty bar and the label [0hrs], for every
    maximum, the guarded zero included. *)
Theorem zero_day_renders_empty (daily_commits : gmap string Z) max_commits day :
  day_commits daily_commits day = 0 ->
  bar_length daily_commits max_commits day = Ok 0 /\
  daily_bar daily_commits max_commits day = Ok (ljust 8 day +:+ " ╠╣ 0hrs").
Proof.
  intros Hc. unfold daily_bar, bar_hours, bar_length. rewrite Hc, !scale_round_zero.
  split; reflexivity.
Qed.

Lemma zero_day_renders_empty_witness :
  daily_bar {[ "Mon" := 4 ]} 4 "Sun" = Ok (ljust 8 "Sun" +:+ " ╠╣ 0hrs").
Proof.
  apply (zero_day_renders_empty {[ "Mon" := 4 ]} 4 "Sun").
  vm_compute. reflexivity.
Defined.

(** X18.  No commits in a cell.  A cell whose day or hour the histogram lacks,
    or whose count is zero, gets intensity 0 and the empty glyph, for every
    maximum. *)
Theorem zero_cell_renders_empty (hourly_commits : gmap string (gmap Z Z))
    max_commits day hour :
  cell_commits hourly_commits day hour = 0 ->
  intensity hourly_commits max_commits day hour = Ok 0 /\
  heatmap_cell hourly_commits max_commits day hour = Ok "░░".
Proof.
  intros Hc.
  assert (Hi : intensity hourly_commits max_commits day hour = Ok 0).
  { unfold intensity. rewrite Hc.
    destruct (Z.ltb_spec 0 max_commits); [|done].
    unfold true_div. destruct (Z.eqb_spec max_commits 0); [lia|]. done. }
  split; [done|]. unfold heatmap_cell. by rewrite Hi.
Qed.

Lemma zero_cell_renders_empty_witness :
  heatmap_cell {[ "Mon" := {[ 9 := 4 ]} ]} 4 "Mon" 10 = Ok "░░".
Proof.
  apply (zero_cell_renders_empty {[ "Mon" := {[ 9 := 4 ]} ]} 4 "Mon" 10).
  vm_compute. reflexivity.
Defined.

(** * True division keeps the order *)

Lemma pow2_split N j : 0 <= N -> 0 <= j -> 2 ^ (N + j) = 2 ^ N * 2 ^ j.
Proof. intros. apply Z.pow_add_r; lia. Qed.

Lemma pow2_pos n : 0 <= n -> 0 < 2 ^ n.
Proof. intros. apply Z.pow_pos_nonneg; lia. Qed.

(** What [ilog2_ratio] finds, without powers of negative exponents. *)
Lemma ilog2_ratio_bounds a b :
  0 < a -> 0 < b ->
  let k := ilog2_ratio a b in
  (0 <= k -> b * 2 ^ k <= a) /\
  (k < 0 -> b <= a * 2 ^ (- k)) /\
  (0 <= k + 1 -> a < b * 2 ^ (k + 1)) /\
  (k + 1 < 0 -> a * 2 ^ (- k - 1) < b).
Proof.
  intros Ha Hb k. subst k. unfold ilog2_ratio.
  pose proof (Z.log2_spec a Ha) as [La Ua].
  pose proof (Z.log2_spec b Hb) as [Lb Ub].
  pose proof (Z.log2_nonneg a) as HA. pose proof (Z.log2_nonneg b) as HB.
  set (A := Z.log2 a) in *. set (B := Z.log2 b) in *.
  rewrite Z.pow_succ_r in Ua, Ub by lia.
  destruct (Z.leb_spec 0 (A - B)) as [Hl|Hl].
  - assert (EA : 2 ^ A = 2 ^ B * 2 ^ (A - B))
      by (rewrite <- Z.pow_add_r by lia; f_equal; lia).
    pose proof (pow2_pos (A - B) Hl) as Hp.
    destruct (Z.leb_spec (b * 2 ^ (A - B)) a) as [Ht|Ht].
    + repeat split; intros; try lia.
      replace (A - B + 1) with (Z.succ (A - B)) by lia.
      rewrite Z.pow_succ_r by lia. nia.
    + repeat split; intros; try lia.
      * replace (A - B) with (Z.succ (A - B - 1)) in EA, Ht by lia.
        rewrite Z.pow_succ_r in EA, Ht by lia.
        pose proof (pow2_pos (A - B - 1) ltac:(lia)). nia.
      * assert (A - B = 0) as E0 by lia. rewrite E0 in *.
        replace (- (0 - 1)) with 1 by lia. change (2 ^ 1) with 2.
        change (2 ^ 0) with 1 in EA. nia.
      * by replace (A - B - 1 + 1) with (A - B) by lia.
  - assert (EB : 2 ^ B = 2 ^ A * 2 ^ (- (A - B)))
      by (rewrite <- Z.pow_add_r by lia; f_equal; lia).
    pose proof (pow2_pos (- (A - B)) ltac:(lia)) as Hp.
    destruct (Z.leb_spec b (a * 2 ^ (- (A - B)))) as [Ht|Ht].
    + repeat split; intros; try lia.
      * assert (A - B = -1) as E0 by lia. rewrite E0 in *.
        change (2 ^ (-1 + 1)) with 1. change (2 ^ (- -1)) with 2 in *. nia.
      * replace (- (A - B)) with (Z.succ (- (A - B) - 1)) in EB by lia.
        rewrite Z.pow_succ_r in EB by lia.
        pose proof (pow2_pos (- (A - B) - 1) ltac:(lia)). nia.
    + repeat split; intros; try lia.
      * replace (- (A - B - 1)) with (Z.succ (- (A - B))) by lia.
        rewrite Z.pow_succ_r by lia. nia.
      * by replace (- (A - B - 1) - 1) with (- (A - B)) by lia.
Qed.

Lemma ilog2_ratio_below a b N j :
  0 < a -> 0 < b -> 0 <= N -> j <= ilog2_ratio a b -> 0 <= N + j ->
  b * 2 ^ (N + j) <= a * 2 ^ N.
Proof.
  intros Ha Hb HN Hj HNj.
  destruct (ilog2_ratio_bounds a b Ha Hb) as (H1 & H2 & _ & _).
  set (k := ilog2_ratio a b) in *.
  pose proof (pow2_pos N HN) as HpN.
  pose proof (pow2_pos (N + j) HNj) as HpNj.
  destruct (Z_lt_le_dec k 0) as [Hk|Hk].
  - specialize (H2 Hk).
    assert (HNk : 0 <= N + k) by lia.
    assert (E : 2 ^ N = 2 ^ (- k) * 2 ^ (N + k))
      by (rewrite <- Z.pow_add_r by lia; f_equal; lia).
    assert (Hm : 2 ^ (N + j) <= 2 ^ (N + k)) by (apply Z.pow_le_mono_r; lia).
    pose proof (pow2_pos (N + k) HNk). pose proof (pow2_pos (- k) ltac:(lia)). nia.
  - specialize (H1 Hk).
    assert (E : 2 ^ (N + k) = 2 ^ N * 2 ^ k) by (apply Z.pow_add_r; lia).
    assert (Hm : 2 ^ (N + j) <= 2 ^ (N + k)) by (apply Z.pow_le_mono_r; lia).
    pose proof (pow2_pos k Hk). nia.
Qed.

Lemma ilog2_ratio_above a b N j :
  0 < a -> 0 < b -> 0 <= N -> ilog2_ratio a b + 1 <= j -> 0 <= N + j ->
  a * 2 ^ N < b * 2 ^ (N + j).
Proof.
  intros Ha Hb HN Hj HNj.
  destruct (ilog2_ratio_bounds a b Ha Hb) as (_ & _ & H3 & H4).
  set (k := ilog2_ratio a b) in *.
  pose proof (pow2_pos N HN) as HpN.
  pose proof (pow2_pos (N + j) HNj) as HpNj.
  destruct (Z_lt_le_dec (k + 1) 0) as [Hk|Hk].
  - specialize (H4 Hk).
    destruct (Z_lt_le_dec (- k - 1) N) as [Hlt|Hge].
    + assert (E : 2 ^ N = 2 ^ (- k - 1) * 2 ^ (N + k + 1))
        by (rewrite <- Z.pow_add_r by lia; f_equal; lia).
      assert (Hm : 2 ^ (N + k + 1) <= 2 ^ (N + j)) by (apply Z.pow_le_mono_r; lia).
      pose proof (pow2_pos (N + k + 1) ltac:(lia)).
      pose proof (pow2_pos (- k - 1) ltac:(lia)). nia.
    + assert (Hm : 2 ^ N <= 2 ^ (- k - 1)) by (apply Z.pow_le_mono_r; lia).
      nia.
  - specialize (H3 Hk).
    assert (E : 2 ^ (N + (k + 1)) = 2 ^ N * 2 ^ (k + 1)) by (apply Z.pow_add_r; lia).
    assert (Hm : 2 ^ (N + (k + 1)) <= 2 ^ (N + j)) by (apply Z.pow_le_mono_r; lia).
    pose proof (pow2_pos (k + 1) Hk). nia.
Qed.

Lemma ilog2_ratio_mono a1 a2 b :
  0 < a1 -> a1 <= a2 -> 0 < b -> ilog2_ratio a1 b <= ilog2_ratio a2 b.
Proof.
  intros Ha Hle Hb.
  destruct (Z_le_gt_dec (ilog2_ratio a1 b) (ilog2_ratio a2 b)) as [|Hgt]; [done|].
  exfalso. set (k1 := ilog2_ratio a1 b) in *. set (k2 := ilog2_ratio a2 b) in *.
  set (N := Z.max 0 (- k2)).
  assert (a2 * 2 ^ N < b * 2 ^ (N + (k2 + 1)))
    by (apply ilog2_ratio_above; fold k2; lia).
  assert (b * 2 ^ (N + (k2 + 1)) <= a1 * 2 ^ N)
    by (apply ilog2_ratio_below; fold k1; lia).
  assert (0 < 2 ^ N) by (apply pow2_pos; lia). nia.
Qed.

Lemma div_cross_mono m1 m2 P1 P2 :
  0 < P1 -> 0 < P2 -> m1 * P2 <= m2 * P1 -> m1 / P1 <= m2 / P2.
Proof.
  intros H1 H2 Hc.
  apply Z.div_le_lower_bound; [lia|].
  pose proof (Z.mul_div_le m1 P1 H1). nia.
Qed.

Lemma round_half_even_scale n d c :
  0 < d -> 0 < c -> round_half_even (n * c) (d * c) = round_half_even n d.
Proof.
  intros Hd Hc. unfold round_half_even.
  rewrite Z.div_mul_cancel_r, Z.mul_mod_distr_r by lia.
  assert (E1 : (2 * (n mod d * c) <? d * c) = (2 * (n mod d) <? d))
    by (destruct (Z.ltb_spec (2 * (n mod d * c)) (d * c)),
                 (Z.ltb_spec (2 * (n mod d)) d); try done; nia).
  assert (E2 : (d * c <? 2 * (n mod d * c)) = (d <? 2 * (n mod d)))
    by (destruct (Z.ltb_spec (d * c) (2 * (n mod d * c))),
                 (Z.ltb_spec d (2 * (n mod d))); try done; nia).
  by rewrite E1, E2.
Qed.

Lemma round_half_even_cross_mono m1 m2 P1 P2 :
  0 < P1 -> 0 < P2 -> m1 * P2 <= m2 * P1 ->
  round_half_even m1 P1 <= round_half_even m2 P2.
Proof.
  intros H1 H2 Hc.
  rewrite <- (round_half_even_scale m1 P1 P2), <- (round_half_even_scale m2 P2 P1) by lia.
  rewrite (Z.mul_comm P2 P1). apply round_half_even_mono; lia.
Qed.

(** A larger numerator over the same denominator gives a float that is not
    smaller, so neither its [int] nor its [round] is. *)
Lemma true_div_mono a1 a2 b :
  0 <= a1 -> a1 <= a2 -> 0 < b -> a2 <= 31 * b ->
  exists x1 x2,
    true_div a1 b = Ok x1 /\ true_div a2 b = Ok x2 /\
    py_int x1 <= py_int x2 /\ py_round x1 <= py_round x2.
Proof.
  intros Ha1 Hle Hb Hab.
  destruct (Z.eq_dec a1 0) as [->|Hne].
  { destruct (true_div_bounded a2 b 31) as (x2 & Hx2 & Hi & Hr); [lia..|].
    exists (Float 0 0), x2. split; [|split; [done|]].
    - unfold true_div. destruct (Z.eqb_spec b 0); [lia|]. done.
    - change (py_int (Float 0 0)) with 0. change (py_round (Float 0 0)) with 0. lia. }
  assert (Hk1 : ilog2_ratio a1 b <= 5 - 1)
    by (apply ilog2_ratio_lt; [..|change (2 ^ 5) with 32]; lia).
  assert (Hk2 : ilog2_ratio a2 b <= 5 - 1)
    by (apply ilog2_ratio_lt; [..|change (2 ^ 5) with 32]; lia).
  pose proof (ilog2_ratio_mono a1 a2 b ltac:(lia) Hle Hb) as Hkm.
  set (k1 := ilog2_ratio a1 b) in *. set (k2 := ilog2_ratio a2 b) in *.
  eexists _, _. split; [apply true_div_pos; lia|]. split; [apply true_div_pos; lia|].
  fold k1 k2.
  set (e1 := Z.max (k1 - 52) (-1074)). set (e2 := Z.max (k2 - 52) (-1074)).
  assert (He1 : e1 < 0) by lia. assert (He2 : e2 < 0) by lia.
  set (P1 := 2 ^ (- e1)). set (P2 := 2 ^ (- e2)).
  assert (HP1 : 0 < P1) by (apply pow2_pos; lia).
  assert (HP2 : 0 < P2) by (apply pow2_pos; lia).
  set (m1 := round_half_even (a1 * P1) b). set (m2 := round_half_even (a2 * P2) b).
  assert (Hm1 : 0 <= m1) by (apply round_half_even_ge; nia).
  assert (Hm2 : 0 <= m2) by (apply round_half_even_ge; nia).
  assert (Hcross : m1 * P2 <= m2 * P1).
  { destruct (Z.eq_dec e1 e2) as [Ee|Ene].
    - assert (P1 = P2) as EP by (unfold P1, P2; by rewrite Ee).
      assert (m1 <= m2); [|nia].
      unfold m1, m2. rewrite EP. apply round_half_even_mono; nia.
    - assert (He : e1 < e2) by lia.
      assert (Hk : k1 + 1 <= k2) by lia.
      assert (Ee2 : e2 = k2 - 52) by lia.
      assert (HG1 : m1 <= 2 ^ (- e1 + k2)).
      { apply round_half_even_le; [lia|].
        assert (a1 * 2 ^ (- e1) < b * 2 ^ (- e1 + k2))
          by (apply ilog2_ratio_above; fold k1; lia).
        fold P1 in H. lia. }
      assert (HG2 : 2 ^ (- e2 + k2) <= m2).
      { apply round_half_even_ge; [lia|].
        assert (b * 2 ^ (- e2 + k2) <= a2 * 2 ^ (- e2))
          by (apply ilog2_ratio_below; fold k2; lia).
        fold P2 in H. lia. }
      assert (EG : 2 ^ (- e1 + k2) * P2 = 2 ^ (- e2 + k2) * P1).
      { unfold P1, P2. rewrite <- !Z.pow_add_r by lia. f_equal. lia. }
      assert (0 < 2 ^ (- e1 + k2)) by (apply pow2_pos; lia).
      assert (0 < 2 ^ (- e2 + k2)) by (apply pow2_pos; lia). nia. }
  unfold py_int, py_round. cbn [mant expo]. fold P1 P2.
  destruct (Z.leb_spec 0 e1); [lia|]. destruct (Z.leb_spec 0 e2); [lia|].
  split.
  - rewrite !Z.quot_div_nonneg by lia. by apply div_cross_mono.
  - by apply round_half_even_cross_mono.
Qed.

Lemma scale_round_mono c1 c2 K M :
  0 <= c1 -> c1 <= c2 -> c2 <= M -> 0 <= K < 32 ->
  exists n1 n2,
    scale_round c1 K M = Ok n1 /\ scale_round c2 K M = Ok n2 /\ n1 <= n2.
Proof.
  intros H1 H12 H2 HK. unfold scale_round.
  destruct (Z.ltb_spec 0 M); [|exists 0, 0; split; [done|split; [done|lia]]].
  destruct (true_div_mono (c1 * K) (c2 * K) M) as (x1 & x2 & -> & -> & _ & Hr); [nia..|].
  cbn [mbind result_bind]. eauto.
Qed.

(** X15.  Bars keep the order of the counts.  For counts that are not negative,
    of any size, a day with no fewer commits than another gets a bar that is
    no shorter and an hours label that is no smaller. *)
Theorem bars_monotone (daily_commits : gmap string Z) max_commits day1 day2 :
  daily_nonneg daily_commits ->
  daily_max daily_commits = Ok max_commits ->
  day_commits daily_commits day1 <= day_commits daily_commits day2 ->
  exists n1 n2 h1 h2,
    bar_length daily_commits max_commits day1 = Ok n1 /\
    bar_length daily_commits max_commits day2 = Ok n2 /\ n1 <= n2 /\
    bar_hours daily_commits max_commits day1 = Ok h1 /\
    bar_hours daily_commits max_commits day2 = Ok h2 /\ h1 <= h2.
Proof.
  intros Hnn HM Hle.
  destruct (daily_max_spec _ _ Hnn HM) as [_ Hdays].
  pose proof (Hdays day1) as Hd1. pose proof (Hdays day2) as Hd2.
  destruct (scale_round_mono _ _ 20 max_commits (proj1 Hd1) Hle (proj2 Hd2))
    as (n1 & n2 & Hn1 & Hn2 & Hn); [lia|].
  destruct (scale_round_mono _ _ 24 max_commits (proj1 Hd1) Hle (proj2 Hd2))
    as (h1 & h2 & Hh1 & Hh2 & Hh); [lia|].
  exists n1, n2, h1, h2. unfold bar_length, bar_hours. auto 10.
Qed.

Lemma bars_monotone_witness :
  exists n1 n2,
    bar_length {[ "Mon" := 9; "Tue" := 4; "Sat" := 5 ]} 9 "Tue" = Ok n1 /\
    bar_length {[ "Mon" := 9; "Tue" := 4; "Sat" := 5 ]} 9 "Sat" = Ok n2 /\ n1 <= n2.
Proof.
  destruct (bars_monotone {[ "Mon" := 9; "Tue" := 4; "Sat" := 5 ]} 9 "Tue" "Sat")
    as (n1 & n2 & _ & _ & H1 & H2 & Hle & _).
  - unfold daily_nonneg. apply (bool_decide_unpack _). vm_compute. reflexivity.
  - vm_compute. reflexivity.
  - vm_compute. discriminate.
  - exists n1, n2. auto.
Defined.

(** X16.  Glyphs keep the order of the counts.  For counts that are not
    negative, of any size, a cell with no fewer commits than another gets an
    intensity that is no lower. *)
Theorem intensity_monotone (hourly_commits : gmap string (gmap Z Z))
    max_commits day1 hour1 day2 hour2 :
  hourly_nonneg hourly_commits ->
  hourly_max hourly_commits = Ok max_commits ->
  cell_commits hourly_commits day1 hour1 <= cell_commits hourly_commits day2 hour2 ->
  exists i1 i2,
    intensity hourly_commits max_commits day1 hour1 = Ok i1 /\
    intensity hourly_commits max_commits day2 hour2 = Ok i2 /\ i1 <= i2.
Proof.
  intros Hnn HM Hle.
  destruct (hourly_max_spec _ _ Hnn HM) as [_ Hcells].
  pose proof (Hcells day1 hour1) as Hc1. pose proof (Hcells day2 hour2) as Hc2.
  unfold intensity.
  destruct (Z.ltb_spec 0 max_commits); [|exists 0, 0; split; [done|split; [done|lia]]].
  change (Z.of_nat (length intensity_chars) - 1) with 6.
  destruct (true_div_mono (cell_commits hourly_commits day1 hour1 * 6)
              (cell_commits hourly_commits day2 hour2 * 6) max_commits)
    as (x1 & x2 & -> & -> & Hi & _); [lia..|].
  cbn [mbind result_bind]. eauto.
Qed.

Lemma intensity_monotone_witness :
  exists i1 i2,
    intensity {[ "Mon" := {[ 9 := 11; 14 := 2 ]}; "Sun" := {[ 3 := 7 ]} ]} 11 "Mon" 14 = Ok i1 /\
    intensity {[ "Mon" := {[ 9 := 11; 14 := 2 ]}; "Sun" := {[ 3 := 7 ]} ]} 11 "Sun" 3 = Ok i2 /\
    i1 <= i2.
Proof.
  apply (intensity_monotone {[ "Mon" := {[ 9 := 11; 14 := 2 ]}; "Sun" := {[ 3 := 7 ]} ]}
           11 "Mon" 14 "Sun" 3).
  - unfold hourly_nonneg. apply (bool_decide_unpack _). vm_compute. reflexivity.
  - vm_compute. reflexivity.
  - vm_compute. discriminate.
Defined.

(** * When the renderers return *)


Lemma create_heatmap_ok (hourly_commits : gmap string (gmap Z Z)) max_commits :
  hourly_nonneg hourly_commits ->
  hourly_max hourly_commits = Ok max_commits ->
  exists heatmap, create_heatmap hourly_commits = Ok heatmap.
Proof.
  intros Hnn HM. destruct (hourly_max_spec _ _ Hnn HM) as [_ Hcells].
  unfold create_heatmap. rewrite HM. cbn [mbind result_bind].
  destruct (for_each_ok (heatmap_row hourly_commits max_commits) days) as (rows & -> & _);
    [|cbn [mbind result_bind]; eauto].
  intros day _. unfold heatmap_row.
  destruct (for_each_ok (heatmap_cell hourly_commits max_commits day) hours)
    as (cells & -> & _); [|cbn [mbind result_bind]; eauto].
  intros hour _.
  destruct (heatmap_cell_bounded hourly_commits max_commits day hour (Hcells day hour))
    as (i & g & _ & _ & -> & _). eauto.
Qed.

Lemma hourly_cells_nil (hourly_commits : gmap string (gmap Z Z)) :
  hourly_cells hourly_commits = [] <->
  map_Forall (fun _ day_commits => day_commits = ∅) hourly_commits.
Proof.
  split.
  - intros Hnil day row Hrow.
    destruct (map_choose_or_empty row) as [(hour & c & Hc)|]; [|done].
    assert (Hin : c ∈ hourly_cells hourly_commits)
      by (apply elem_of_hourly_cells; eauto).
    rewrite Hnil in Hin. by apply elem_of_nil in Hin.
  - intros Hrows. destruct (hourly_cells hourly_commits) as [|c cs] eqn:E; [done|].
    assert (Hin : c ∈ hourly_cells hourly_commits) by (rewrite E; set_solver).
    apply elem_of_hourly_cells in Hin as (day & row & hour & Hrow & Hc).
    rewrite (Hrows _ _ Hrow), lookup_empty in Hc. discriminate.
Qed.

(** X19.  The one error of the heatmap.  On counts that are not negative,
    [create_heatmap] either returns the grid or raises [ValueError], and it
    raises exactly when the histogram has days and every day maps to an empty
    hour map; no index, division or overflow error can occur. *)
Theorem create_heatmap_returns_or_value_error (hourly_commits : gmap string (gmap Z Z)) :
  hourly_nonneg hourly_commits ->
  (create_heatmap hourly_commits = Raise ValueError /\
   hourly_commits <> ∅ /\
   map_Forall (fun _ day_commits => day_commits = ∅) hourly_commits) \/
  ((exists heatmap, create_heatmap hourly_commits = Ok heatmap) /\
   (hourly_commits = ∅ \/
    exists day row hour c, hourly_commits !! day = Some row /\ row !! hour = Some c)).
Proof.
  intros Hnn.
  destruct (decide (hourly_commits = ∅)) as [->|Hne].
  { right. split; [|by left]. by apply (create_heatmap_ok ∅ 1). }
  destruct (hourly_cells hourly_commits) as [|c cs] eqn:E.
  - left. split; [|split; [done|by apply hourly_cells_nil]].
    unfold create_heatmap, hourly_max.
    destruct (truthy hourly_commits) eqn:Et; [|by apply truthy_empty in Et].
    by rewrite E.
  - right.
    assert (Hin : c ∈ hourly_cells hourly_commits) by (rewrite E; set_solver).
    apply elem_of_hourly_cells in Hin as (day & row & hour & Hrow & Hc).
    destruct (hourly_max_ok _ _ _ _ _ Hrow Hc) as (M & HM & _).
    split; [by apply (create_heatmap_ok _ M)|]. right. eauto 6.
Qed.

Lemma create_heatmap_returns_or_value_error_witness :
  exists heatmap, create_heatmap {[ "Mon" := {[ 9 := 3 ]}; "Tue" := ∅ ]} = Ok heatmap.
Proof.
  destruct (create_heatmap_returns_or_value_error {[ "Mon" := {[ 9 := 3 ]}; "Tue" := ∅ ]})
    as [(Hr & _)|(Hok & _)].
  - unfold hourly_nonneg. apply (bool_decide_unpack _). vm_compute. reflexivity.
  - vm_compute in Hr. discriminate.
  - exact Hok.
Defined.

(** X20.  The hours label.  For counts that are not negative, of any size, the
    hours label of every day lies in [0, 24]. *)
Theorem hours_label_in_bounds (daily_commits : gmap string Z) max_commits day :
  daily_nonneg daily_commits ->
  daily_max daily_commits = Ok max_commits ->
  exists h, bar_hours daily_commits max_commits day = Ok h /\ 0 <= h <= 24.
Proof.
  intros Hnn HM. destruct (daily_max_spec _ _ Hnn HM) as [_ Hdays].
  apply scale_round_bounded; [apply Hdays|lia].
Qed.

Lemma hours_label_in_bounds_witness :
  exists h, bar_hours {[ "Mon" := 7; "Fri" := 2 ]} 7 "Fri" = Ok h /\ 0 <= h <= 24.
Proof.
  apply (hours_label_in_bounds {[ "Mon" := 7; "Fri" := 2 ]} 7 "Fri").
  - unfold daily_nonneg. apply (bool_decide_unpack _). vm_compute. reflexivity.
  - vm_compute. reflexivity.
Defined.

(** * What the collector hands to the renderers *)

Lemma get_commit_time_data_run user :
  get_commit_time_data user =
  Ok (t_hourly (foldl tally_step (mkTally ∅ ∅) (delivered_commits (get_repos user))),
      t_daily (foldl tally_step (mkTally ∅ ∅) (delivered_commits (get_repos user)))).
Proof. unfold get_commit_time_data. by rewrite for_in_repos. Qed.

Lemma tally_step_well_formed t c :
  well_formed_histograms (t_hourly t) (t_daily t) ->
  well_formed_histograms (t_hourly (tally_step t c)) (t_daily (tally_step t c)).
Proof.
  intros (Hdom & Hrows & Hdaily). destruct c as [d h]. unfold tally_step. cbn.
  split; [|split].
  - rewrite !dom_insert_L. by rewrite Hdom.
  - apply map_Forall_insert_2; [|done]. split; [apply insert_non_empty|].
    assert (Hrow : map_Forall (fun _ c => 1 <= c) (default ∅ (t_hourly t !! d))).
    { destruct (t_hourly t !! d) as [row|] eqn:E; cbn; [|apply map_Forall_empty].
      by apply (Hrows _ _ E). }
    apply map_Forall_insert_2; [|done].
    destruct (default ∅ (t_hourly t !! d) !! h) as [c|] eqn:E; cbn; [|lia].
    specialize (Hrow _ _ E). cbn in Hrow. lia.
  - apply map_Forall_insert_2; [|done].
    destruct (t_daily t !! d) as [c|] eqn:E; cbn; [|lia].
    specialize (Hdaily _ _ E). cbn in Hdaily. lia.
Qed.

Lemma foldl_tally_well_formed l t :
  well_formed_histograms (t_hourly t) (t_daily t) ->
  well_formed_histograms (t_hourly (foldl tally_step t l)) (t_daily (foldl tally_step t l)).
Proof.
  revert t. induction l as [|c l IH]; intros t Ht; [done|].
  cbn [foldl]. by apply IH, tally_step_well_formed.
Qed.

Lemma count_cell_le_day day hour l : (count_cell day hour l <= count_day day l)%nat.
Proof.
  unfold count_cell, count_day. induction l as [|c l IH]; [done|].
  rewrite !filter_cons. destruct (decide (c = (day, hour))) as [->|Hne].
  - rewrite decide_True by done. cbn [length]. lia.
  - case_decide; cbn [length]; lia.
Qed.

Lemma get_commit_time_data_well_formed user :
  exists hourly_commits daily_commits,
    get_commit_time_data user = Ok (hourly_commits, daily_commits) /\
    well_formed_histograms hourly_commits daily_commits.
Proof.
  eexists _, _. split; [apply get_commit_time_data_run|].
  apply foldl_tally_well_formed. unfold well_formed_histograms. cbn [t_hourly t_daily].
  split; [by rewrite !dom_empty_L|]. split; apply map_Forall_empty.
Qed.

(** X7.  What the collector builds.  The two histograms of
    [get_commit_time_data] always have the same days, no day of the hourly
    one maps to an empty hour map, no count is below 1, and no cell exceeds
    the total of its day. *)
Theorem collector_histograms_well_formed user :
  exists hourly_commits daily_commits,
    get_commit_time_data user = Ok (hourly_commits, daily_commits) /\
    well_formed_histograms hourly_commits daily_commits /\
    forall day hour,
      cell_commits hourly_commits day hour <= day_commits daily_commits day.
Proof.
  destruct (get_commit_time_data_well_formed user) as (hourly & daily & Hd & Hwf).
  destruct (get_commit_time_data_counts user) as (hourly' & daily' & Hd' & Hh & Hday).
  rewrite Hd in Hd'. apply Ok_inj in Hd'. injection Hd' as <- <-.
  exists hourly, daily. split; [done|]. split; [done|].
  intros day hour. rewrite Hh, Hday. apply inj_le, count_cell_le_day.
Qed.







(** * The collector and the order of the repositories *)

Lemma counts_ext (m1 m2 : gmap Z Z) :
  map_Forall (fun _ c => 1 <= c) m1 -> map_Forall (fun _ c => 1 <= c) m2 ->
  (forall k, default 0 (m1 !! k) = default 0 (m2 !! k)) -> m1 = m2.
Proof.
  intros H1 H2 Heq. apply map_eq. intros k. specialize (Heq k).
  destruct (m1 !! k) as [c1|] eqn:E1, (m2 !! k) as [c2|] eqn:E2; cbn in Heq.
  - by subst.
  - specialize (H1 _ _ E1). cbn in H1. lia.
  - specialize (H2 _ _ E2). cbn in H2. lia.
  - done.
Qed.

Lemma daily_ext (m1 m2 : gmap string Z) :
  map_Forall (fun _ c => 1 <= c) m1 -> map_Forall (fun _ c => 1 <= c) m2 ->
  (forall day, day_commits m1 day = day_commits m2 day) -> m1 = m2.
Proof.
  intros H1 H2 Heq. apply map_eq. intros k. specialize (Heq k).
  unfold day_commits in Heq.
  destruct (m1 !! k) as [c1|] eqn:E1, (m2 !! k) as [c2|] eqn:E2; cbn in Heq.
  - by subst.
  - specialize (H1 _ _ E1). cbn in H1. lia.
  - specialize (H2 _ _ E2). cbn in H2. lia.
  - done.
Qed.

Lemma hourly_ext (h1 h2 : gmap string (gmap Z Z)) :
  map_Forall (fun _ row => row <> ∅ /\ map_Forall (fun _ c => 1 <= c) row) h1 ->
  map_Forall (fun _ row => row <> ∅ /\ map_Forall (fun _ c => 1 <= c) row) h2 ->
  (forall day hour, cell_commits h1 day hour = cell_commits h2 day hour) -> h1 = h2.
Proof.
  intros H1 H2 Heq. apply map_eq. intros day.
  assert (Hlone : forall (ha hb : gmap string (gmap Z Z)) row,
    map_Forall (fun _ row => row <> ∅ /\ map_Forall (fun _ c => 1 <= c) row) ha ->
    ha !! day = Some row -> hb !! day = None ->
    (forall hour, cell_commits ha day hour = cell_commits hb day hour) -> False).
  { intros ha hb row Ha Hrow Hnone Hc. destruct (Ha _ _ Hrow) as [Hne Hpos].
    destruct (map_choose _ Hne) as (hour & c & Hcell).
    specialize (Hc hour). unfold cell_commits in Hc.
    rewrite Hrow, Hnone in Hc. cbn in Hc. rewrite Hcell, lookup_empty in Hc. cbn in Hc.
    specialize (Hpos _ _ Hcell). cbn in Hpos. lia. }
  destruct (h1 !! day) as [r1|] eqn:E1, (h2 !! day) as [r2|] eqn:E2.
  - f_equal. apply counts_ext; [by apply (H1 _ _ E1)|by apply (H2 _ _ E2)|].
    intros hour. specialize (Heq day hour). unfold cell_commits in Heq.
    by rewrite E1, E2 in Heq.
  - exfalso. apply (Hlone h1 h2 r1 H1 E1 E2). intros hour. apply Heq.
  - exfalso. apply (Hlone h2 h1 r2 H2 E2 E1). intros hour. symmetry. apply Heq.
  - done.
Qed.

Lemma year_total_permutation repos1 repos2 :
  repos1 ≡ₚ repos2 -> year_total repos1 = year_total repos2.
Proof.
  unfold year_total.
  induction 1 as [|repo l1 l2 _ IH|r1 r2 l|l1 l2 l3 _ IH1 _ IH2]; cbn [foldr].
  - done.
  - by rewrite IH.
  - destruct (year_totalCount r1), (year_totalCount r2); lia.
  - congruence.
Qed.

(** X8.  The order of the repositories.  Listing the same repositories in
    another order changes neither the two histograms nor the yearly total. *)
Theorem collector_ignores_repository_order user1 user2 :
  get_repos user1 ≡ₚ get_repos user2 ->
  get_commit_time_data user1 = get_commit_time_data user2 /\
  count_year_commits (get_repos user1) = count_year_commits (get_repos user2).
Proof.
  intros Hperm. split.
  - destruct (get_commit_time_data_well_formed user1) as (h1 & d1 & E1 & _ & Hr1 & Hd1).
    destruct (get_commit_time_data_well_formed user2) as (h2 & d2 & E2 & _ & Hr2 & Hd2).
    destruct (get_commit_time_data_counts user1) as (h1' & d1' & E1' & Hc1 & Hday1).
    destruct (get_commit_time_data_counts user2) as (h2' & d2' & E2' & Hc2 & Hday2).
    rewrite E1 in E1'. apply Ok_inj in E1'. injection E1' as <- <-.
    rewrite E2 in E2'. apply Ok_inj in E2'. injection E2' as <- <-.
    assert (Hdel : delivered_commits (get_repos user1) ≡ₚ delivered_commits (get_repos user2))
      by (unfold delivered_commits; by rewrite Hperm).
    rewrite E1, E2. f_equal. f_equal.
    + apply hourly_ext; [done..|]. intros day hour. rewrite Hc1, Hc2.
      unfold count_cell. by rewrite Hdel.
    + apply daily_ext; [done..|]. intros day. rewrite Hday1, Hday2.
      unfold count_day. by rewrite Hdel.
  - rewrite !count_year_commits_total. f_equal. by apply year_total_permutation.
Qed.

Lemma collector_ignores_repository_order_witness :
  get_commit_time_data
    (mkUser [mkRepo 1 (Yield ("Mon", 9) StopIteration) (Ok 4);
             mkRepo 0 (Fails GithubException) (Raise GithubException);
             mkRepo 2 (Yield ("Tue", 7) (Yield ("Mon", 9) StopIteration)) (Ok 6)] [] [] []) =
  get_commit_time_data
    (mkUser [mkRepo 2 (Yield ("Tue", 7) (Yield ("Mon", 9) StopIteration)) (Ok 6);
             mkRepo 1 (Yield ("Mon", 9) StopIteration) (Ok 4);
             mkRepo 0 (Fails GithubException) (Raise GithubException)] [] [] []).
Proof.
  apply collector_ignores_repository_order. cbn [get_repos].
  symmetry. apply (Permutation_cons_append [_; _]).
Defined.

(** X9.  A failure is the end of the list.  The histograms depend only on the
    commits that were handed out: a list that fails after some commits counts
    like a list that ends there, and the commits before the failure stay
    counted. *)
Theorem failure_counts_as_end_of_list user1 user2 :
  Forall2 (fun repo1 repo2 =>
             delivered (recent_commits repo1) = delivered (recent_commits repo2))
          (get_repos user1) (get_repos user2) ->
  get_commit_time_data user1 = get_commit_time_data user2.
Proof.
  intros Hall. rewrite !get_commit_time_data_run.
  assert (delivered_commits (get_repos user1) = delivered_commits (get_repos user2)) as ->;
    [|done].
  unfold delivered_commits.
  induction Hall as [|r1 r2 l1 l2 Hr _ IH]; [done|].
  by rewrite !bind_cons, Hr, IH.
Qed.

Lemma failure_counts_as_end_of_list_witness :
  get_commit_time_data
    (mkUser [mkRepo 1 (Yield ("Mon", 9) (Fails GithubException)) (Ok 4)] [] [] []) =
  get_commit_time_data
    (mkUser [mkRepo 1 (Yield ("Mon", 9) StopIteration) (Ok 4)] [] [] []).
Proof.
  apply failure_counts_as_end_of_list. cbn [get_repos].
  constructor; [reflexivity|constructor].
Defined.

(** * The scan of the events *)

(** X10.  Which repositories count as contributed to.  A repository is counted
    exactly when a push or pull-request event names it and neither that
    event nor any event listed before it is older than [year_ago]: the scan
    ignores everything from the first older event on, recent or not. *)
Theorem scan_events_counts year_ago (events : list Event) (acc : gset string) r :
  r ∈ scan_events year_ago events acc <->
  r ∈ acc \/
  exists (i : nat) event,
    events !! i = Some event /\
    type event ∈ ["PushEvent"; "PullRequestEvent"] /\
    repo_name event = r /\
    forall (j : nat) earlier,
      (j <= i)%nat -> events !! j = Some earlier -> year_ago <= created_at earlier.
Proof.
  revert acc. induction events as [|e events IH]; intros acc; cbn [scan_events].
  - split; [auto|]. intros [?|(i & ev & Hi & _)]; [done|]. by rewrite lookup_nil in Hi.
  - destruct (Z.ltb_spec (created_at e) year_ago) as [Hold|Hnew].
    + split; [auto|]. intros [?|(i & ev & _ & _ & _ & Hall)]; [done|].
      specialize (Hall 0%nat e ltac:(lia) eq_refl). lia.
    + assert (Hshift : forall acc' : gset string,
        (r ∈ acc' \/
         exists (i : nat) event,
           events !! i = Some event /\
           type event ∈ ["PushEvent"; "PullRequestEvent"] /\
           repo_name event = r /\
           forall (j : nat) earlier,
             (j <= i)%nat -> events !! j = Some earlier -> year_ago <= created_at earlier) <->
        (r ∈ acc' \/
         exists (i : nat) event,
           (e :: events) !! S i = Some event /\
           type event ∈ ["PushEvent"; "PullRequestEvent"] /\
           repo_name event = r /\
           forall (j : nat) earlier,
             (j <= S i)%nat -> (e :: events) !! j = Some earlier ->
             year_ago <= created_at earlier)).
      { intros acc'. split; (intros [?|(i & ev & Hi & Ht & Hn & Hall)]; [by left|right]);
          exists i, ev; (split; [done|]); (split; [done|]); (split; [done|]).
        - intros [|j] earlier Hj Hl; cbn in Hl; [by injection Hl as <-|].
          apply (Hall j); [lia|done].
        - intros j earlier Hj Hl. apply (Hall (S j)); [lia|done]. }
      case_bool_decide as Hq.
      * rewrite IH, Hshift. split.
        -- intros [[->%elem_of_singleton|?]%elem_of_union|(i & ev & H)];
             [right|by left|right; eauto].
           exists 0%nat, e. split; [done|]. split; [done|]. split; [done|].
           intros [|j] earlier Hj Hl; [by injection Hl as <-|lia].
        -- intros [?|([|i] & ev & Hi & Ht & Hn & Hall)].
           ++ left. apply elem_of_union. by right.
           ++ injection Hi as <-. left. apply elem_of_union. left.
              by apply elem_of_singleton.
           ++ right. eauto 10.
      * rewrite IH, Hshift. split.
        -- intros [?|(i & ev & H)]; [by left|right; eauto].
        -- intros [?|([|i] & ev & Hi & Ht & Hn & Hall)]; [by left| |right; eauto 10].
           injection Hi as <-. done.
Qed.

(** * More on the patcher *)

Section patcher_runs.
Local Open Scope nat_scope.

Lemma contains_needs_head a sub s :
  has_char a s = false -> contains (String a sub) s = false.
Proof.
  induction s as [|c s IH]; [done|].
  cbn [has_char]. intros [Hc Hs]%orb_false_iff.
  apply bool_decide_eq_false in Hc.
  rewrite contains_cons, prefix_cons, (IH Hs).
  by rewrite bool_decide_false by congruence.
Qed.

(** X4.  The rendered section holds no marker.  Whatever the stats, the
    section that [create_stats_section] renders contains neither marker, so
    the patcher never finds a marker inside its own output, and it holds no
    backslash, so [re.sub] writes it as it is. *)
Theorem stats_section_holds_no_marker year stats stats_section :
  create_stats_section year stats = Ok stats_section ->
  contains start_marker stats_section = false /\
  contains end_marker stats_section = false /\
  has_char "\" stats_section = false.
Proof.
  intros Hs%create_stats_section_plain. unfold plain in Hs.
  apply andb_true_iff in Hs as [Hlt Hbs]. apply negb_true_iff in Hlt, Hbs.
  split; [|split; [|done]].
  - destruct start_marker_head as (tail & -> & _). by apply contains_needs_head.
  - destruct end_marker_head as (tail & -> & _). by apply contains_needs_head.
Qed.

Lemma stats_section_holds_no_marker_witness :
  exists stats_section,
    create_stats_section 2025 sample_stats = Ok stats_section /\
    contains start_marker stats_section = false.
Proof.
  destruct (create_stats_section 2025 sample_stats) as [sec|] eqn:E;
    [|vm_compute in E; discriminate].
  exists sec. split; [reflexivity|].
  apply (stats_section_holds_no_marker 2025 sample_stats sec E).
Defined.

Lemma written_replaced year stats stats_section old pre post :
  create_stats_section year stats = Ok stats_section ->
  find start_marker
    (pre +:+ start_marker +:+ nl +:+ old +:+ nl +:+ end_marker +:+ post)
    = Some (String.length pre) ->
  rfind end_marker post = None ->
  update_readme year stats
    (pre +:+ start_marker +:+ nl +:+ old +:+ nl +:+ end_marker +:+ post) =
  Ok (pre +:+ start_marker +:+ nl +:+ stats_section +:+ nl +:+ end_marker +:+ post).
Proof.
  intros Hs Hf Hpost. rewrite (update_readme_present _ _ _ _ _ Hs Hf). f_equal.
  unfold pattern.
  replace (pre +:+ start_marker +:+ nl +:+ old +:+ nl +:+ end_marker +:+ post)
    with (pre +:+ start_marker +:+ (nl +:+ old +:+ nl) +:+ end_marker +:+ post)
    in * by (by rewrite !app_assoc).
  rewrite (re_sub_replaces _ _ end_marker_nonempty start_marker_nonempty _ _
             (String.length pre)
             (String.length pre + String.length start_marker +
              String.length (nl +:+ old +:+ nl))); [|done| |lia].
  - rewrite take_str_app.
    replace (pre +:+ start_marker +:+ (nl +:+ old +:+ nl) +:+ end_marker +:+ post)
      with ((pre +:+ start_marker +:+ (nl +:+ old +:+ nl) +:+ end_marker) +:+ post)
      by (by rewrite !app_assoc).
    replace (String.length pre + String.length start_marker +
             String.length (nl +:+ old +:+ nl) + String.length end_marker)
      with (String.length (pre +:+ start_marker +:+ (nl +:+ old +:+ nl) +:+ end_marker))
      by (rewrite !length_app; lia).
    rewrite drop_str_app. by rewrite !app_assoc.
  - apply rfind_written; [apply end_marker_head|done].
Qed.

(** X1.  The last run wins.  After a run has written the README, a further
    run, with whatever stats, leaves exactly what it would have left on the
    original content: nothing of the earlier section remains.  With the same
    stats this is idempotence. *)
Theorem update_readme_last_run_wins year1 stats1 year2 stats2 content written :
  update_readme year1 stats1 content = Ok written ->
  update_readme year2 stats2 written = update_readme year2 stats2 content.
Proof.
  intros H.
  destruct (create_stats_section year2 stats2) as [section2|e] eqn:Hs2;
    [|by unfold update_readme; rewrite Hs2].
  destruct (create_stats_section year1 stats1) as [section1|] eqn:Hs1;
    [|by unfold update_readme in H; rewrite Hs1 in H].
  destruct (find start_marker content) as [i|] eqn:Hi.
  - rewrite (update_readme_present _ _ _ _ _ Hs1 Hi) in H. apply Ok_inj in H.
    unfold pattern in H.
    destruct (rfind end_marker content) as [j|] eqn:Hj.
    + destruct (decide (i + String.length start_marker <= j)) as [Hij|Hij].
      * rewrite (re_sub_replaces _ _ end_marker_nonempty start_marker_nonempty
                   _ _ _ _ Hi Hj Hij) in H.
        rewrite !app_assoc in H. subst written.
        rewrite (update_readme_present _ _ _ _ _ Hs2 Hi). unfold pattern.
        rewrite (re_sub_replaces _ _ end_marker_nonempty start_marker_nonempty
                   _ _ _ _ Hi Hj Hij).
        rewrite !app_assoc.
        apply written_replaced; [done| |].
        -- rewrite (find_take _ _ _ _ Hi). f_equal.
           symmetry. apply length_take. by apply find_le in Hi.
        -- rewrite (rfind_drop _ _ _ _ end_marker_nonempty Hj).
           case_decide; [|done].
           assert (0 < String.length end_marker) by (vm_compute; lia). lia.
      * rewrite (re_sub_unchanged _ _ end_marker_nonempty start_marker_nonempty _ _ i)
          in H; [|done|intros j' Hj'; rewrite Hj in Hj'; injection Hj' as <-; lia].
        by subst written.
    + rewrite (re_sub_unchanged _ _ end_marker_nonempty start_marker_nonempty _ _ i)
        in H; [|done|intros j' Hj'; congruence].
      by subst written.
  - apply find_None in Hi. unfold update_readme in H. rewrite Hs1 in H.
    cbn [mbind result_bind] in H. rewrite Hi in H. cbn [negb] in H.
    apply Ok_inj in H. subst written.
    unfold update_readme at 2. rewrite Hs2. cbn [mbind result_bind].
    rewrite Hi. cbn [negb].
    replace (content +:+ nl +:+ start_marker +:+ nl +:+ section1 +:+ nl +:+ end_marker +:+ nl)
      with ((content +:+ nl) +:+ start_marker +:+ nl +:+ section1 +:+ nl +:+ end_marker +:+ nl)
      by (by rewrite !app_assoc).
    replace (content +:+ nl +:+ start_marker +:+ nl +:+ section2 +:+ nl +:+ end_marker +:+ nl)
      with ((content +:+ nl) +:+ start_marker +:+ nl +:+ section2 +:+ nl +:+ end_marker +:+ nl)
      by (by rewrite !app_assoc).
    apply written_replaced; [done| |done].
    rewrite !app_assoc. change (nl +:+ ?y) with (String "010"%char y).
    rewrite find_after_char by done.
    rewrite find_app_prefix. cbn [fmap option_fmap option_map]. f_equal.
    rewrite length_app. simpl. lia.
Qed.

Lemma update_readme_last_run_wins_witness :
  exists written,
    update_readme 2025 sample_stats readme_two_ends = Ok written /\
    update_readme 2026 (mkStats 1 2 3 0 4 ∅ ∅ 5) written =
    update_readme 2026 (mkStats 1 2 3 0 4 ∅ ∅ 5) readme_two_ends.
Proof.
  destruct (update_readme 2025 sample_stats readme_two_ends) as [written|] eqn:E;
    [|vm_compute in E; discriminate].
  exists written. split; [reflexivity|].
  apply (update_readme_last_run_wins 2025 sample_stats _ _ readme_two_ends written E).
Defined.

(** X2.  The text before the section is safe.  When the content holds a start
    marker, whatever else it holds, [update_readme] leaves the text before
    the first start marker as it was, and the first start marker of the
    result is where it was. *)
Theorem update_readme_keeps_text_before_marker year stats content written i :
  update_readme year stats content = Ok written ->
  find start_marker content = Some i ->
  take_str i written = take_str i content /\
  find start_marker written = Some i.
Proof.
  intros H Hi.
  destruct (create_stats_section year stats) as [stats_section|] eqn:Hs;
    [|by unfold update_readme in H; rewrite Hs in H].
  rewrite (update_readme_present _ _ _ _ _ Hs Hi) in H. apply Ok_inj in H.
  unfold pattern in H.
  assert (Hfixed : re_sub (Cat (Group (Lit start_marker)) (Cat AnyStar (Group (Lit end_marker))))
            (start_marker +:+ nl +:+ stats_section +:+ nl +:+ end_marker) content = content ->
          take_str i written = take_str i content /\ find start_marker written = Some i)
    by (intros E; rewrite E in H; by subst written).
  destruct (rfind end_marker content) as [j|] eqn:Hj.
  - destruct (decide (i + String.length start_marker <= j)) as [Hij|Hij].
    + rewrite (re_sub_replaces _ _ end_marker_nonempty start_marker_nonempty
                 _ _ _ _ Hi Hj Hij) in H.
      rewrite !app_assoc in H. subst written. split.
      * pose proof (length_take i content ltac:(by apply find_le in Hi)) as Hlen.
        rewrite <- Hlen at 1. apply take_str_app.
      * apply (find_take _ _ _ _ Hi).
    + apply Hfixed, (re_sub_unchanged _ _ end_marker_nonempty start_marker_nonempty _ _ i);
        [done|]. intros j' Hj'. rewrite Hj in Hj'. injection Hj' as <-. lia.
  - apply Hfixed, (re_sub_unchanged _ _ end_marker_nonempty start_marker_nonempty _ _ i);
      [done|]. intros j' Hj'. congruence.
Qed.

Lemma update_readme_keeps_text_before_marker_witness :
  exists written,
    update_readme 2025 sample_stats readme_two_ends = Ok written /\
    take_str 5 written = take_str 5 readme_two_ends.
Proof.
  destruct (update_readme 2025 sample_stats readme_two_ends) as [written|] eqn:E;
    [|vm_compute in E; discriminate].
  exists written. split; [reflexivity|].
  apply (update_readme_keeps_text_before_marker 2025 sample_stats readme_two_ends written 5 E).
  vm_compute. reflexivity.
Defined.

(** X3.  A start marker that no end marker follows.  When the stats render and
    no end marker occurs after the first start marker, [update_readme]
    writes the content back unchanged: the new section is not written. *)
Theorem update_readme_without_end_marker year stats content stats_section i :
  create_stats_section year stats = Ok stats_section ->
  find start_marker content = Some i ->
  rfind end_marker (drop_str (i + String.length start_marker) content) = None ->
  update_readme year stats content = Ok content.
Proof.
  intros Hs Hi Hnone. apply (update_readme_unchanged _ _ _ _ i Hs Hi).
  intros j Hj. rewrite (rfind_drop _ _ _ _ end_marker_nonempty Hj) in Hnone.
  case_decide; [done|lia].
Qed.

Lemma update_readme_without_end_marker_witness :
  update_readme 2025 sample_stats readme_no_end = Ok readme_no_end.
Proof.
  destruct (create_stats_section 2025 sample_stats) as [sec|] eqn:E;
    [|vm_compute in E; discriminate].
  apply (update_readme_without_end_marker 2025 sample_stats readme_no_end sec 5 E).
  - vm_compute. reflexivity.
  - vm_compute. reflexivity.
Defined.
End patcher_runs.

